(** * Agent scripts of basic_ango_agents: a shallow embedding

The repository holds four Python scripts.  Each one configures an
[Agent] of the agno library and runs it once.  The scripts are
embedded as computations in a small state-and-exception monad:
the state carries what the process printed, the agent objects it
constructed (each with its own conversation history) and the
on-disk vector database; the exception channel carries Python's
raised exceptions and [SystemExit].

What the agno library, the language model and the network do is
not part of the repository: it enters as a [World], a record of
answers that the scripts consult. *)

From stdpp Require Import gmap strings list pretty.
From Stdlib Require Import ZArith Lia.

Set Warnings "-register-all".

Local Open Scope string_scope.
Local Open Scope list_scope.

(** ** The fragment of the Python runtime the scripts use *)
Module Py.

(** Raised objects.  [except Exception] catches instances of
    [Exception] only; [KeyboardInterrupt] and the like derive from
    [BaseException] directly and pass through such a handler. *)
Inductive exn :=
| Exception (msg : string)
| BaseException (msg : string).

(** [str(e)] *)
Definition str (e : exn) : string :=
  match e with Exception m => m | BaseException m => m end.

(** What unwinds the stack: a raised exception, or [exit(n)], which
    raises [SystemExit] and is not an [Exception] either. *)
Inductive signal :=
| Raise (e : exn)
| SystemExit (code : Z).

(** [os.getenv(k)] is [None] or a string; [not v] holds for [None]
    and for the empty string. *)
Definition getenv (environ : gmap string string) (k : string) : option string :=
  environ !! k.

Definition truthy (v : option string) : bool :=
  match v with
  | None => false
  | Some EmptyString => false
  | Some (String _ _) => true
  end.

(** [s * n] on strings *)
Fixpoint str_mul (s : string) (n : nat) : string :=
  match n with
  | O => EmptyString
  | S k => s +:+ str_mul s k
  end.

Arguments str_mul : simpl never.

Definition nl : string := String (Ascii.ascii_of_nat 10) EmptyString.

End Py.

(** ** Agents as the scripts construct them *)

Inductive Tool :=
| ArxivTools (search_arxiv read_arxiv_papers : bool) (download_dir : string)
| DuckDuckGoTools
| Newspaper4kTools.

(** [LanceDb(table_name=..., uri=...)] *)
Record LanceDb := { table_name : string; uri : string }.

(** [ArxivKnowledgeBase(queries=..., vector_db=...)] *)
Record ArxivKnowledgeBase := { queries : list string; vector_db : LanceDb }.

(** The keyword arguments of [Agent(...)] that bear on control flow.
    A keyword the script does not pass is [None] (the library's
    default applies).  Persona and instruction text, [markdown] and
    [show_tool_calls] only shape what the model is told and what is
    displayed; they are left out. *)
Record AgentArgs := {
  model : string;
  tools : list Tool;
  knowledge : option ArxivKnowledgeBase;
  search_knowledge : option bool;
  response_model : option string;
  exponential_backoff : option bool;
  delay_between_retries : option Z;
  retries : option Z;
}.

(** One entry of an agent's conversation. *)
Inductive turn :=
| UserTurn (text : string)
| ModelTurn (text : string)
| ToolTurn (tool : string) (result : string).

(** An agent object on the heap: its configuration and the
    conversation it has accumulated so far. *)
Record AgentObj := { cfg : AgentArgs; history : list turn }.

(** A document of the knowledge base. *)
Definition doc := string.

(** ** The Pydantic classes the scripts declare

Every field is declared with [Field(...)], that is, required. *)

(** recommender.py, [class Recommendation(BaseModel)] *)
Module Recommendation.
Record t := {
    title : string;
    year : Z;
    summary : string;
    reason : string;
  }.
End Recommendation.

(** recommender.py, [class RecommendationList(BaseModel)] *)
Module RecommendationList.
Record t := { recommendations : list Recommendation.t }.
End RecommendationList.

(** researcher.py, [class ResearchPaperNotes(BaseModel)] *)
Module ResearchPaperNotes.
Record t := {
    title : string;
    tldr : string;
    key_contributions : list string;
    methodology_simplified : string;
    impact_and_significance : string;
    original_paper_url : string;
  }.
End ResearchPaperNotes.

(** What [response.content] can hold: Python is dynamically typed, so
    besides an instance of the declared class the scripts allow for
    anything else (they test with [isinstance]). *)
Inductive value :=
| VNone
| VStr (s : string)
| VRecommendationList (x : RecommendationList.t)
| VResearchPaperNotes (x : ResearchPaperNotes.t).

(** ** The outside world *)

(** What one call of [agent.run] / [agent.print_response] does: the
    turns it appends to the agent's conversation, the content of the
    response, and the exception it raises, if any. *)
Record reply := {
  said : list turn;
  content : value;
  raised : option Py.exn;
}.

Record World := {
  (** the library, the model and the tools behind one agent call, as a
      function of the agent's configuration, its conversation so far,
      the knowledge-base table it can search, the prompt and the
      [context] keyword *)
  respond : AgentArgs -> list turn -> option (list doc) -> string ->
            list (string * string) -> reply;
  (** the imports and constructors inside
      [create_knowledge_based_agent] may raise *)
  kb_construct : option Py.exn;
  (** the documents ArXiv returns for the knowledge base's queries,
      or the exception the download raises *)
  arxiv_fetch : list string -> list doc + Py.exn;
}.

(** ** Process state and the script monad *)

Inductive event :=
| EPrint (s : string)
| EPPrint (v : value)
| ERun (ref : nat) (before : list turn) (seen : option (list doc)) (prompt : string)
| ELoad (db : LanceDb) (recreate : bool).

Record state := {
  out : list event;                          (* what happened, oldest first *)
  heap : list AgentObj;                      (* agent objects, by reference *)
  lancedb : gmap (string * string) (list doc); (* tables on disk, by (uri, table) *)
}.

Definition M (A : Type) : Type := state -> (A + Py.signal) * state.

Definition ret {A} (x : A) : M A := fun st => (inl x, st).

Definition bind {A B} (m : M A) (k : A -> M B) : M B :=
  fun st =>
    match m st with
    | (inl x, st') => k x st'
    | (inr s, st') => (inr s, st')
    end.

Notation "'let!' x ':=' m 'in' k" := (bind m (fun x => k))
  (at level 10, x pattern, m at level 100, k at level 200).
Notation "m >> k" := (bind m (fun _ => k))
  (at level 90, right associativity).

(** [try: body  except Exception as e: handler e] *)
Definition try_except {A} (body : M A) (handler : Py.exn -> M A) : M A :=
  fun st =>
    match body st with
    | (inr (Py.Raise (Py.Exception m)), st') => handler (Py.Exception m) st'
    | r => r
    end.

Definition emit (e : event) : M unit :=
  fun st => (inl tt, {| out := out st ++ [e]; heap := heap st; lancedb := lancedb st |}).

Definition print (s : string) : M unit := emit (EPrint s).
Definition pprint (v : value) : M unit := emit (EPPrint v).

(** [exit(n)] *)
Definition exit {A} (n : Z) : M A := fun st => (inr (Py.SystemExit n), st).

Definition raise {A} (e : Py.exn) : M A := fun st => (inr (Py.Raise e), st).

(** [Agent(...)]: a new object with an empty conversation. *)
Definition Agent (c : AgentArgs) : M nat :=
  fun st =>
    (inl (length (heap st)),
     {| out := out st;
        heap := heap st ++ [{| cfg := c; history := [] |}];
        lancedb := lancedb st |}).

Definition db_key (db : LanceDb) : string * string := (uri db, table_name db).

(** The table an agent can search: the one its knowledge base points
    at, if it has a knowledge base and the table exists. *)
Definition table_seen (c : AgentArgs) (db : gmap (string * string) (list doc))
    : option (list doc) :=
  knowledge c ≫= fun kb => db !! db_key (vector_db kb).

Arguments table_seen : simpl never.

Section WithWorld.

Variable W : World.

(** One call on the agent object [ref]: the world answers from the
    object's configuration and conversation; the prompt and the turns
    of this call are appended to that object's conversation whether
    or not the call raises. *)
Definition call (ref : nat) (prompt : string) (context : list (string * string)) : M value :=
  fun st =>
    match heap st !! ref with
    | None => (inr (Py.Raise (Py.Exception "NameError")), st)
    | Some a =>
        let seen := table_seen (cfg a) (lancedb st) in
        let r := respond W (cfg a) (history a) seen prompt context in
        let a' := {| cfg := cfg a; history := history a ++ UserTurn prompt :: said r |} in
        let st' := {| out := out st ++ [ERun ref (history a) seen prompt];
                      heap := <[ref := a']> (heap st);
                      lancedb := lancedb st |} in
        match raised r with
        | Some e => (inr (Py.Raise e), st')
        | None => (inl (content r), st')
        end
    end.

(** [agent.run(prompt, context=...)], whose [.content] the scripts read *)
Definition run (ref : nat) (prompt : string) (context : list (string * string)) : M value :=
  call ref prompt context.

(** [agent.print_response(prompt, stream=True)] *)
Definition print_response (ref : nat) (prompt : string) : M unit :=
  call ref prompt [] >> ret tt.

(** [knowledge_base.load(recreate=...)]: with [recreate] the table
    is dropped first; a missing table is created empty; then the
    fetched documents that the table does not hold yet are inserted. *)
Definition load (kb : ArxivKnowledgeBase) (recreate : bool) : M unit :=
  fun st =>
    let k := db_key (vector_db kb) in
    let dropped := if recreate then delete k (lancedb st) else lancedb st in
    let old := default [] (dropped !! k) in
    let logged := out st ++ [ELoad (vector_db kb) recreate] in
    match arxiv_fetch W (queries kb) with
    | inr e =>
        (inr (Py.Raise e),
         {| out := logged; heap := heap st; lancedb := <[k := old]> dropped |})
    | inl docs =>
        let fresh := filter (fun d => d ∉ old) docs in
        (inl tt,
         {| out := logged; heap := heap st; lancedb := <[k := old ++ fresh]> dropped |})
    end.

End WithWorld.

(** A process starts with nothing printed, no agent object, and
    whatever earlier processes left in the vector database. *)
Definition boot (db : gmap (string * string) (list doc)) : state :=
  {| out := []; heap := []; lancedb := db |}.

(** ** arxiv_genius_agent.py *)
Module arxiv_genius_agent.

Definition agent_cfg : AgentArgs := {|
  model := "gemini-2.0-flash";
  tools := [ArxivTools true true "./temp_papers"];
  knowledge := None;
  search_knowledge := None;
  response_model := None;
  exponential_backoff := Some true;
  delay_between_retries := Some 3%Z;
  retries := Some 3%Z;
|}.

Definition knowledge_base : ArxivKnowledgeBase := {|
  queries := ["Attention is All You Need"; "transformer"; "attention mechanism"];
  vector_db := {| table_name := "arxiv_papers"; uri := "./temp_lancedb" |};
|}.

Definition kb_agent_cfg : AgentArgs := {|
  model := "gemini-2.0-flash";
  tools := [];
  knowledge := Some knowledge_base;
  search_knowledge := Some true;
  response_model := None;
  exponential_backoff := None;
  delay_between_retries := None;
  retries := None;
|}.

Definition fallback_agent_cfg : AgentArgs := {|
  model := "gemini-2.0-flash";
  tools := [];
  knowledge := None;
  search_knowledge := None;
  response_model := None;
  exponential_backoff := None;
  delay_between_retries := None;
  retries := None;
|}.

Definition paper_title : string := "Attention is All You Need".

(** The three prompts, as the f-strings build them. *)
Definition prompt_tools : string := "Analyze the paper: " +:+ paper_title.
Definition prompt_kb : string := "Tell me about the '" +:+ paper_title +:+ "' paper".
Definition prompt_fallback : string :=
  "Based on your knowledge, create handnotes for the paper '" +:+ paper_title +:+ "' "
  +:+ "using the format I specified earlier. Focus on the transformer architecture "
  +:+ "and attention mechanism.".

Section Script.

Variable W : World.

Definition create_knowledge_based_agent : M (nat * ArxivKnowledgeBase) :=
  match kb_construct W with
  | Some e => raise e
  | None =>
      let! kb_agent := Agent kb_agent_cfg in
      ret (kb_agent, knowledge_base)
  end.

(** The body under [if __name__ == "__main__":], given the
    module-level [agent]. *)
Definition main (agent : nat) : M unit :=
  print "🤖 Trying ArxivTools approach..." >>
  print (Py.str_mul "-" 60) >>
  try_except
    (print_response W agent prompt_tools)
    (fun e =>
       print ("❌ ArxivTools failed: " +:+ Py.str e) >>
       print (Py.nl +:+ "🔄 Trying Knowledge Base approach...") >>
       print (Py.str_mul "-" 60) >>
       try_except
         (let! (kb_agent, kb) := create_knowledge_based_agent in
          print "📚 Loading knowledge base..." >>
          load W kb true >>
          print_response W kb_agent prompt_kb)
         (fun kb_error =>
            print ("❌ Knowledge Base approach also failed: " +:+ Py.str kb_error) >>
            print (Py.nl +:+ "💡 Fallback: Using general knowledge...") >>
            let! fallback_agent := Agent fallback_agent_cfg in
            print_response W fallback_agent prompt_fallback)).

(** The whole file, top to bottom. *)
Definition script (environ : gmap string string) : M unit :=
  let api_key := Py.getenv environ "GOOGLE_API_KEY" in
  (if negb (Py.truthy api_key)
   then print "🔴 ERROR: Set your GOOGLE_API_KEY environment variable" >> exit 1
   else ret tt) >>
  let! agent := Agent agent_cfg in
  main agent.

End Script.

(** How each of the three strategies ends, read off the world:
    [None] for a normal end, [Some e] for what it raises.  The second
    strategy constructs, loads and queries, and raises what the first
    of these raises. *)
Definition outcome_tools (W : World) : option Py.exn :=
  raised (respond W agent_cfg [] None prompt_tools []).

Definition outcome_kb (W : World) : option Py.exn :=
  match kb_construct W with
  | Some e => Some e
  | None =>
      match arxiv_fetch W (queries knowledge_base) with
      | inr e => Some e
      | inl docs => raised (respond W kb_agent_cfg [] (Some docs) prompt_kb [])
      end
  end.

Definition outcome_fallback (W : World) : option Py.exn :=
  raised (respond W fallback_agent_cfg [] None prompt_fallback []).

End arxiv_genius_agent.

(** [for x in l: body x] *)
Fixpoint for_each {A} (l : list A) (body : A -> M unit) : M unit :=
  match l with
  | [] => ret tt
  | x :: rest => body x >> for_each rest body
  end.

(** ** researcher.py *)
Module researcher.

Definition research_agent_cfg : AgentArgs := {|
  model := "gemini-2.0-flash";
  tools := [Newspaper4kTools];
  knowledge := None;
  search_knowledge := None;
  response_model := Some "ResearchPaperNotes";
  exponential_backoff := None;
  delay_between_retries := None;
  retries := None;
|}.

Definition paper_url : string := "https://arxiv.org/abs/1706.03762".

Section Script.

Variable W : World.

Definition main (research_agent : nat) : M unit :=
  print "--- 🔬 Gemini Research Paper Distiller ---" >>
  print ("Analyzing paper: " +:+ paper_url +:+ Py.nl) >>
  print ("🤖 Dr. Axiom is reading and analyzing the paper... this may take a moment."
         +:+ Py.nl) >>
  try_except
    (let! notes := run W research_agent paper_url [("original_paper_url", paper_url)] in
     match notes with
     | VResearchPaperNotes n =>
         print ("--- ✨ Here are your Cool Notes from Dr. Axiom ✨ ---" +:+ Py.nl) >>
         print ("📄 Title: " +:+ ResearchPaperNotes.title n +:+ Py.nl) >>
         print ("🧠 TL;DR: " +:+ ResearchPaperNotes.tldr n +:+ Py.nl) >>
         print "🎯 Key Contributions:" >>
         for_each (ResearchPaperNotes.key_contributions n)
           (fun contribution => print ("   - " +:+ contribution)) >>
         print (Py.nl +:+ "⚙️ Methodology, Simplified:") >>
         print ("   " +:+ ResearchPaperNotes.methodology_simplified n +:+ Py.nl) >>
         print "🚀 Impact and Significance:" >>
         print ("   " +:+ ResearchPaperNotes.impact_and_significance n +:+ Py.nl) >>
         print ("🔗 Original Paper: " +:+ ResearchPaperNotes.original_paper_url n)
     | _ =>
         print "Sorry, there was an error processing the paper." >>
         pprint notes
     end)
    (fun e =>
       print ("❌ Error occurred: " +:+ Py.str e) >>
       print "Please check your API key and internet connection.").

Definition script (environ : gmap string string) : M unit :=
  (if negb (Py.truthy (Py.getenv environ "GOOGLE_API_KEY"))
   then
     print "❌ Error: GOOGLE_API_KEY environment variable is not set!" >>
     print "Please set your Google API key:" >>
     print "export GOOGLE_API_KEY=your_api_key_here" >>
     print (Py.nl +:+ "Get your API key from: https://ai.google.dev/gemini-api/docs/api-key") >>
     exit 1
   else ret tt) >>
  let! research_agent := Agent research_agent_cfg in
  main research_agent.

End Script.

End researcher.

(** ** recommender.py *)
Module recommender.

Definition recommender_agent_cfg : AgentArgs := {|
  model := "gemini-1.5-flash-latest";
  tools := [];
  knowledge := None;
  search_knowledge := None;
  response_model := Some "RecommendationList";
  exponential_backoff := None;
  delay_between_retries := None;
  retries := None;
|}.

Definition prompt : string :=
  "I just watched 'Dune' and loved the epic world-building and political intrigue. What should I watch or read next?".

Section Script.

Variable W : World.

(** The body of [for rec in recommendations_object.recommendations:]. *)
Definition show (rec : Recommendation.t) : M unit :=
  print ("🎬 Title: " +:+ Recommendation.title rec +:+ " ("
         +:+ pretty (Recommendation.year rec) +:+ ")") >>
  print ("   📜 Summary: " +:+ Recommendation.summary rec) >>
  print ("   🤔 Why you'll like it: " +:+ Recommendation.reason rec +:+ Py.nl).

Definition main (recommender_agent : nat) : M unit :=
  print "--- Gemini Recommender Agent ---" >>
  print ("User Prompt: " +:+ prompt +:+ Py.nl) >>
  print ("🤖 Cine-Bot is thinking..." +:+ Py.nl) >>
  let! recommendations_object := run W recommender_agent prompt [] in
  print "--- Raw Pydantic Object ---" >>
  pprint recommendations_object >>
  print (Py.nl +:+ Py.str_mul "=" 30 +:+ Py.nl) >>
  match recommendations_object with
  | VRecommendationList l =>
      print ("--- Here are my recommendations for you! ---" +:+ Py.nl) >>
      for_each (RecommendationList.recommendations l) show
  | _ =>
      print "Sorry, I couldn't generate recommendations in the correct format."
  end.

(** No environment variable is read anywhere in this file. *)
Definition script (environ : gmap string string) : M unit :=
  let! recommender_agent := Agent recommender_agent_cfg in
  main recommender_agent.

End Script.

End recommender.

(** ** fact_checker.py *)
Module fact_checker.

Definition fact_checker_agent_cfg : AgentArgs := {|
  model := "gemini-1.5-flash-latest";
  tools := [DuckDuckGoTools];
  knowledge := None;
  search_knowledge := None;
  response_model := None;
  exponential_backoff := None;
  delay_between_retries := None;
  retries := None;
|}.

Definition example_claim : string :=
  "Is the Great Wall of China visible from space with the naked eye?".

Section Script.

Variable W : World.

Definition main (fact_checker_agent : nat) : M unit :=
  print "--- Gemini Fact-Checker Agent ---" >>
  print "Type your claim or question below, or type 'exit' to quit." >>
  print (Py.nl +:+ "Verifying claim: '" +:+ example_claim +:+ "'" +:+ Py.nl) >>
  print_response W fact_checker_agent example_claim.

(** No environment variable is read anywhere in this file. *)
Definition script (environ : gmap string string) : M unit :=
  let! fact_checker_agent := Agent fact_checker_agent_cfg in
  main fact_checker_agent.

End Script.

End fact_checker.

(** ** Observations on a finished process *)

(** The exit status the shell sees: 0 when the script runs off its
    end, the argument of [exit], 1 after the traceback of an uncaught
    [Exception]. *)
Definition exit_status {A} (r : A + Py.signal) : option Z :=
  match r with
  | inl _ => Some 0%Z
  | inr (Py.SystemExit n) => Some n
  | inr (Py.Raise (Py.Exception _)) => Some 1%Z
  | inr (Py.Raise (Py.BaseException _)) => None
  end.

Definition is_run (e : event) : bool :=
  match e with ERun _ _ _ _ => true | _ => false end.

(** The agent calls of a trace, in order. *)
Definition runs (tr : list event) : list event := filter (fun e => is_run e = true) tr.

(** The prompts handed to agents, in order. *)
Definition prompts (tr : list event) : list string :=
  omap (fun e => match e with ERun _ _ _ p => Some p | _ => None end) tr.

(** The agent objects called, in order. *)
Definition callees (tr : list event) : list nat :=
  omap (fun e => match e with ERun r _ _ _ => Some r | _ => None end) tr.

(** The conversation each called agent held when it was called. *)
Definition conversations (tr : list event) : list (list turn) :=
  omap (fun e => match e with ERun _ h _ _ => Some h | _ => None end) tr.

(** [True] for a printed line that reports a failed strategy. *)
Definition is_failure_report (e : event) : bool :=
  match e with
  | EPrint s => String.prefix "❌" s
  | _ => false
  end.

Definition failure_reports (tr : list event) : list event :=
  filter (fun e => is_failure_report e = true) tr.

(** ** The execution core behind [Agent]

The scripts hand their agents to the agno library, which is not
part of the repository.  The specification describes what that
core must do; the definitions of this module follow its sections
4.2 to 4.6. *)
Module Core.

(** Section 7, the error taxonomy. *)
Inductive FailureKind :=
| Unavailable
| RateLimited
| Malformed
| UnknownTool
| ToolExecutionError
| IterationLimitExceeded
| SchemaViolation
| RetriesExhausted
| AllStrategiesExhausted
| MissingCredential.

(** Structured data, as a model or a tool produces it. *)
Inductive data :=
| DNull
| DStr (s : string)
| DInt (z : Z)
| DList (items : list data)
| DObj (members : list (string * data)).

(** One declared field: name, type, whether it is required, and the
    description handed to the model. *)
Record field_of (T : Type) := Field {
  name : string;
  ty : T;
  required : bool;
  description : string;
}.
Arguments Field {T}.
Arguments name {T}.
Arguments ty {T}.
Arguments required {T}.
Arguments description {T}.

(** Field types: the annotations the scripts use are [str], [int],
    [List[...]] and a nested model class. *)
Inductive ftype :=
| TStr
| TInt
| TList (elem : ftype)
| TModel (fields : list (field_of ftype)).

(** An output schema: a named set of typed fields. *)
Record OutputSchema := {
  schema_name : string;
  schema_fields : list (field_of ftype);
}.

(** The member of an object under a key (the first one, as parsers
    of structured text keep it). *)
Fixpoint member (k : string) (o : list (string * data)) : option data :=
  match o with
  | [] => None
  | (k', v) :: rest => if String.eqb k k' then Some v else member k rest
  end.

Section Fields.

Variable check : ftype -> data -> option data.
Variable o : list (string * data).

(** Walk the declared fields in order: a present member must pass
    the check of its type; an absent one is an error exactly when
    the field is required.  Members the schema does not declare
    are not copied. *)
Fixpoint coerce_fields (fs : list (field_of ftype)) : option (list (string * data)) :=
  match fs with
  | [] => Some []
  | f :: rest =>
      match member (name f) o with
      | Some v =>
          match check (ty f) v, coerce_fields rest with
          | Some v', Some rest' => Some ((name f, v') :: rest')
          | _, _ => None
          end
      | None => if required f then None else coerce_fields rest
      end
  end.

End Fields.

Section Items.

Variable check : data -> option data.

Fixpoint coerce_items (l : list data) : option (list data) :=
  match l with
  | [] => Some []
  | x :: rest =>
      match check x, coerce_items rest with
      | Some x', Some rest' => Some (x' :: rest')
      | _, _ => None
      end
  end.

End Items.

(** Modelled from the spec: the type check of the ResponseValidator
    (section 4.5), which the repository leaves to Pydantic.  A value
    is accepted for a type when it has that type's shape; the spec
    names no conversion between shapes, so none is made. *)
Fixpoint coerce (t : ftype) (v : data) {struct t} : option data :=
  match t, v with
  | TStr, DStr s => Some (DStr s)
  | TInt, DInt z => Some (DInt z)
  | TList e, DList l => option_map DList (coerce_items (coerce e) l)
  | TModel fs, DObj o => option_map DObj (coerce_fields coerce o fs)
  | _, _ => None
  end.

(** A structured object has a schema's shape: every required field
    is present, and every present declared field holds a value of
    the declared type, all the way down. *)
Section HasFields.

Variable has : ftype -> data -> bool.
Variable o : list (string * data).

Fixpoint has_fields (fs : list (field_of ftype)) : bool :=
  match fs with
  | [] => true
  | f :: rest =>
      match member (name f) o with
      | Some v => has (ty f) v
      | None => negb (required f)
      end && has_fields rest
  end.

End HasFields.

Fixpoint has_type (t : ftype) (v : data) {struct t} : bool :=
  match t, v with
  | TStr, DStr _ => true
  | TInt, DInt _ => true
  | TList e, DList l => forallb (has_type e) l
  | TModel fs, DObj o => has_fields has_type o fs
  | _, _ => false
  end.

(** Field names are unique within a model, at every level. *)
Section Distinct.

Variable distinct : ftype -> bool.

Fixpoint distinct_fields (fs : list (field_of ftype)) : bool :=
  match fs with
  | [] => true
  | f :: rest =>
      forallb (fun g => negb (String.eqb (name f) (name g))) rest
      && distinct (ty f)
      && distinct_fields rest
  end.

End Distinct.

Fixpoint well_formed (t : ftype) : bool :=
  match t with
  | TStr | TInt => true
  | TList e => well_formed e
  | TModel fs => distinct_fields well_formed fs
  end.

Section Validator.

(** The reader of structured text (JSON, say) is not specified
    further; [None] is unparseable text. *)
Variable parse : string -> option data.

(** Modelled from the spec: [validate(raw, schema)] of the
    ResponseValidator (section 4.5); the repository has no
    validator of its own.  The result is the whole structured
    object or [SchemaViolation], nothing in between. *)
Definition validate (raw : string) (schema : OutputSchema) : data + FailureKind :=
  match parse raw with
  | None => inr SchemaViolation
  | Some v =>
      match coerce (TModel (schema_fields schema)) v with
      | Some obj => inl obj
      | None => inr SchemaViolation
      end
  end.

End Validator.

(** *** The schemas the scripts declare *)

(** recommender.py, [class Recommendation(BaseModel)] *)
Definition Recommendation_fields : list (field_of ftype) :=
  [Field "title" TStr true "The title of the movie or book.";
   Field "year" TInt true "The year the item was released.";
   Field "summary" TStr true "A one-sentence summary of the plot.";
   Field "reason" TStr true
     "A short, compelling reason why the user would like this, based on their original prompt."].

(** recommender.py, [class RecommendationList(BaseModel)] *)
Definition RecommendationList_schema : OutputSchema := {|
  schema_name := "RecommendationList";
  schema_fields :=
    [Field "recommendations" (TList (TModel Recommendation_fields)) true
       "A list of exactly three recommendations."];
|}.

(** researcher.py, [class ResearchPaperNotes(BaseModel)] *)
Definition ResearchPaperNotes_schema : OutputSchema := {|
  schema_name := "ResearchPaperNotes";
  schema_fields :=
    [Field "title" TStr true "The official title of the research paper.";
     Field "tldr" TStr true
       "A single, impactful sentence summarizing the entire paper. The 'Too Long; Didn't Read' version.";
     Field "key_contributions" (TList TStr) true
       "A bulleted list of the 3 most important contributions or findings of the paper.";
     Field "methodology_simplified" TStr true
       "An easy-to-understand explanation of the paper's core methodology, as if explaining it to a smart colleague from a different field.";
     Field "impact_and_significance" TStr true
       "A paragraph explaining why this paper is important and what its potential impact on the field of AI could be.";
     Field "original_paper_url" TStr true
       "The original URL of the research paper that was analyzed."];
|}.

(** The class instance a validated object stands for. *)
Definition as_str (v : data) : option string :=
  match v with DStr s => Some s | _ => None end.

Definition as_int (v : data) : option Z :=
  match v with DInt z => Some z | _ => None end.

Definition as_list {A} (item : data -> option A) (v : data) : option (list A) :=
  match v with DList l => mapM item l | _ => None end.

Definition ResearchPaperNotes_of (v : data) : option ResearchPaperNotes.t :=
  match v with
  | DObj o =>
      title ← member "title" o ≫= as_str;
      tldr ← member "tldr" o ≫= as_str;
      key_contributions ← member "key_contributions" o ≫= as_list as_str;
      methodology_simplified ← member "methodology_simplified" o ≫= as_str;
      impact_and_significance ← member "impact_and_significance" o ≫= as_str;
      original_paper_url ← member "original_paper_url" o ≫= as_str;
      Some {| ResearchPaperNotes.title := title;
              ResearchPaperNotes.tldr := tldr;
              ResearchPaperNotes.key_contributions := key_contributions;
              ResearchPaperNotes.methodology_simplified := methodology_simplified;
              ResearchPaperNotes.impact_and_significance := impact_and_significance;
              ResearchPaperNotes.original_paper_url := original_paper_url |}
  | _ => None
  end.

Definition Recommendation_of (v : data) : option Recommendation.t :=
  match v with
  | DObj o =>
      title ← member "title" o ≫= as_str;
      year ← member "year" o ≫= as_int;
      summary ← member "summary" o ≫= as_str;
      reason ← member "reason" o ≫= as_str;
      Some {| Recommendation.title := title;
              Recommendation.year := year;
              Recommendation.summary := summary;
              Recommendation.reason := reason |}
  | _ => None
  end.

Definition RecommendationList_of (v : data) : option RecommendationList.t :=
  match v with
  | DObj o =>
      recommendations ← member "recommendations" o ≫= as_list Recommendation_of;
      Some {| RecommendationList.recommendations := recommendations |}
  | _ => None
  end.

(** *** ToolRegistry (section 4.3) *)

Record ToolDescriptor := {
  tool_name : string;
  parameter_schema : OutputSchema;
  (** the capability: a result, or the detail of what it raised *)
  invoke : data -> data + string;
}.

Record ToolCallRequest := { req_tool : string; req_args : data }.

Inductive ToolCallResult :=
| ToolSuccess (payload : data)
| ToolFailure (kind : FailureKind) (detail : string).

Fixpoint find_tool (registry : list ToolDescriptor) (n : string) : option ToolDescriptor :=
  match registry with
  | [] => None
  | t :: rest => if String.eqb (tool_name t) n then Some t else find_tool rest n
  end.

(** Modelled from the spec: [ToolRegistry.dispatch] (section 4.3);
    the repository registers library toolkits and has no dispatcher
    of its own.  An absent name is [UnknownTool]; arguments that do
    not fit the parameter schema are a [ToolExecutionError] without
    a call; whatever the capability raises is captured. *)
Definition dispatch (registry : list ToolDescriptor) (req : ToolCallRequest) : ToolCallResult :=
  match find_tool registry (req_tool req) with
  | None => ToolFailure UnknownTool (req_tool req)
  | Some t =>
      match coerce (TModel (schema_fields (parameter_schema t))) (req_args req) with
      | None => ToolFailure ToolExecutionError "arguments violate the parameter schema"
      | Some _ =>
          match invoke t (req_args req) with
          | inl r => ToolSuccess r
          | inr detail => ToolFailure ToolExecutionError detail
          end
      end
  end.

(** *** ModelClient (section 4.2) *)

(** One step of the model.  A streamed chunk is followed by the
    rest of the same logical request, which ends in a tool call or
    in the final answer. *)
Inductive ModelStep :=
| ToolCall (req : ToolCallRequest)
| TextChunk (text : string) (next : ModelStep)
| FinalAnswer (raw : string).

Inductive Turn :=
| CallerInput (text : string)
| ToolResult (req : ToolCallRequest) (res : ToolCallResult)
| ModelOutput (raw : string).

(** [generate(prompt, tools, schema)]: a step, or one of the
    failures the client surfaces. *)
Definition ModelClient : Type :=
  list Turn -> list ToolDescriptor -> option OutputSchema ->
  ModelStep + FailureKind * string.

Fixpoint chunks (s : ModelStep) : list string :=
  match s with
  | TextChunk t next => t :: chunks next
  | _ => []
  end.

(** The tool call or final answer a step ends in. *)
Fixpoint decision (s : ModelStep) : ToolCallRequest + string :=
  match s with
  | ToolCall req => inl req
  | TextChunk _ next => decision next
  | FinalAnswer raw => inr raw
  end.

(** *** AgentConfig and RunResult (section 3) *)

Record AgentConfig := {
  persona : string;
  instructions : list string;
  tool_set : list ToolDescriptor;
  output_schema : option OutputSchema;
  max_attempts : nat;
  base_delay : Z;
  backoff_multiplier : Z;
  iteration_cap : nat;
}.

Inductive Payload :=
| Text (s : string)
| Structured (obj : data).

Inductive RunResult :=
| Success (payload : Payload)
| Failure (kind : FailureKind) (message : string).

(** *** PromptComposer (section 4.1) *)

Definition compose (config : AgentConfig) (task_input : string)
    (side_context : list (string * string)) : string :=
  persona config +:+ Py.nl
  +:+ String.concat Py.nl (instructions config) +:+ Py.nl
  +:+ task_input
  +:+ String.concat EmptyString
        (map (fun kv => Py.nl +:+ fst kv +:+ ": " +:+ snd kv) side_context).

(** *** Orchestrator (section 4.4) *)

(** What a run leaves behind besides its result. *)
Record RunLog := {
  conversation : list Turn;
  dispatched : list (ToolCallRequest * ToolCallResult);
  streamed : list string;
}.

(** A round-trip is one model call paired with one dispatch. *)
Definition round_trips (log : RunLog) : nat := length (dispatched log).

Section Orchestrator.

Variable parse : string -> option data.
Variable generate : ModelClient.
Variable config : AgentConfig.

(** State [Validating]. *)
Definition validating (raw : string) : RunResult :=
  match output_schema config with
  | None => Success (Text raw)
  | Some schema =>
      match validate parse raw schema with
      | inl obj => Success (Structured obj)
      | inr kind => Failure kind ("output does not fit " +:+ schema_name schema)
      end
  end.

(** Modelled from the spec: the Orchestrator's loop (section 4.4),
    which the repository leaves to the library behind
    [agent.run].  [budget] is what is left of the iteration cap:
    states [AwaitingModel] and [ExecutingTool] alternate until the
    model gives a final answer, the client fails, a tool is
    unknown, or a tool is requested with no budget left. *)
Fixpoint awaiting_model (budget : nat) (log : RunLog) : RunResult * RunLog :=
  match generate (conversation log) (tool_set config) (output_schema config) with
  | inr (kind, message) => (Failure kind message, log)
  | inl step =>
      let log1 := {| conversation := conversation log;
                     dispatched := dispatched log;
                     streamed := streamed log ++ chunks step |} in
      match decision step with
      | inr raw =>
          (validating raw,
           {| conversation := conversation log1 ++ [ModelOutput raw];
              dispatched := dispatched log1;
              streamed := streamed log1 |})
      | inl req =>
          match budget with
          | O => (Failure IterationLimitExceeded "iteration cap reached", log1)
          | S budget' =>
              let res := dispatch (tool_set config) req in
              let log2 := {| conversation := conversation log1 ++ [ToolResult req res];
                             dispatched := dispatched log1 ++ [(req, res)];
                             streamed := streamed log1 |} in
              match res with
              | ToolFailure UnknownTool detail => (Failure UnknownTool detail, log2)
              | _ => awaiting_model budget' log2
              end
          end
      end
  end.

(** State [Composing], then the loop. *)
Definition orchestrate (task_input : string) (side_context : list (string * string))
    : RunResult * RunLog :=
  awaiting_model (iteration_cap config)
    {| conversation := [CallerInput (compose config task_input side_context)];
       dispatched := [];
       streamed := [] |}.

End Orchestrator.

(** *** RetryPolicy (section 4.6) *)

Inductive RetryEvent :=
| Attempted (k : nat)
| Slept (seconds : Z).

(** Modelled from the spec: the delay before attempt [k], for
    [k >= 2] (section 4.6). *)
Definition delay_before (base_delay backoff_multiplier : Z) (k : nat) : Z :=
  (base_delay * backoff_multiplier ^ Z.of_nat (k - 2))%Z.

(** A failure that points at a deterministic defect when it repeats. *)
Definition defect (kind : FailureKind) : bool :=
  match kind with
  | Malformed | SchemaViolation => true
  | _ => false
  end.

(** [Unavailable] and [RateLimited] are retried; [Malformed] and
    [SchemaViolation] once, not when the attempt before failed the
    same way; nothing else. *)
Definition retryable (kind : FailureKind) (after_defect : bool) : bool :=
  match kind with
  | Unavailable | RateLimited => true
  | Malformed | SchemaViolation => negb after_defect
  | _ => false
  end.

Section Retry.

Variable attempt : nat -> RunResult.   (* the outcome of attempt 1, 2, ... *)
Variables base_delay backoff_multiplier : Z.

Fixpoint retry_from (left : nat) (k : nat) (after_defect : bool)
    (log : list RetryEvent) : RunResult * list RetryEvent :=
  match left with
  | O => (Failure RetriesExhausted "no attempt left", log)
  | S left' =>
      let log1 := log ++ [Attempted k] in
      match attempt k with
      | Success p => (Success p, log1)
      | Failure kind message =>
          if retryable kind after_defect then
            match left' with
            | O => (Failure RetriesExhausted message, log1)
            | S _ =>
                retry_from left' (S k) (defect kind)
                  (log1 ++ [Slept (delay_before base_delay backoff_multiplier (S k))])
            end
          else (Failure kind message, log1)
      end
  end.

(** Modelled from the spec: [run_with_retry] of the RetryPolicy
    (section 4.6); the repository only passes [retries],
    [delay_between_retries] and [exponential_backoff] to the
    library. *)
Definition run_with_retry (max_attempts : nat) : RunResult * list RetryEvent :=
  retry_from max_attempts 1 false [].

End Retry.

Definition attempts_made (log : list RetryEvent) : nat :=
  length (omap (fun e => match e with Attempted k => Some k | _ => None end) log).

Definition delays (log : list RetryEvent) : list Z :=
  omap (fun e => match e with Slept d => Some d | _ => None end) log.

(** One run of an agent configuration under its retry parameters;
    [models k] is the model as it behaves during attempt [k]. *)
Definition run (parse : string -> option data) (models : nat -> ModelClient)
    (config : AgentConfig) (task_input : string) (side_context : list (string * string))
    : RunResult * list RetryEvent :=
  run_with_retry
    (fun k => fst (orchestrate parse (models k) config task_input side_context))
    (base_delay config) (backoff_multiplier config) (max_attempts config).

(** Modelled from the spec: how the retry keywords of a script's
    [Agent(...)] read as RetryPolicy parameters; section 8 pairs
    base_delay 3, multiplier 2 and 3 attempts with the one agent
    that sets them. *)
Definition retry_parameters (a : AgentArgs) : option (nat * Z * Z) :=
  match retries a, delay_between_retries a, exponential_backoff a with
  | Some n, Some d, Some b => Some (Z.to_nat n, d, if b then 2%Z else 1%Z)
  | _, _, _ => None
  end.

End Core.

(** ** Properties stated over the scripts *)

(** The credential gate: with [GOOGLE_API_KEY] unset or empty the
    script prints something, exits with a non-zero status, and no
    agent is ever called. *)
Definition credential_checked (script : World -> gmap string string -> M unit) : Prop :=
  forall (W : World) (environ : gmap string string) (db : gmap (string * string) (list doc)),
    Py.truthy (Py.getenv environ "GOOGLE_API_KEY") = false ->
    (exists n, fst (script W environ (boot db)) = inr (Py.SystemExit n) /\ n <> 0%Z)
    /\ (exists msg, EPrint msg ∈ out (snd (script W environ (boot db))))
    /\ runs (out (snd (script W environ (boot db)))) = [].

(** The table of a knowledge base after [load(recreate=True)] put
    [docs] into it. *)
Definition recreated (kb : ArxivKnowledgeBase) (docs : list doc)
    (db : gmap (string * string) (list doc)) : gmap (string * string) (list doc) :=
  <[db_key (vector_db kb) := docs]> (delete (db_key (vector_db kb)) db).

Arguments recreated : simpl never.

(** [needle in hay] *)
Definition contains (needle hay : string) : bool :=
  match String.index 0 needle hay with Some _ => true | None => false end.

(** Every agent call of a trace gets the prompt the first call got. *)
Definition same_input_each_entry (tr : list event) : Prop :=
  forall p, p ∈ prompts tr -> head (prompts tr) = Some p.

(** No raw exception leaves the process. *)
Definition structured_end {A} (r : A + Py.signal) : Prop :=
  forall e, r <> inr (Py.Raise e).

(** The second strategy of arxiv_genius_agent.py gets as far as its
    query: construction and loading both went through. *)
Definition kb_queried (W : World) : bool :=
  match kb_construct W, arxiv_fetch W (queries arxiv_genius_agent.knowledge_base) with
  | None, inl _ => true
  | _, _ => false
  end.

(** [isinstance(v, cls)] for the two classes the scripts test. *)
Definition isinstance (v : value) (cls : string) : bool :=
  match v with
  | VRecommendationList _ => String.eqb cls "RecommendationList"
  | VResearchPaperNotes _ => String.eqb cls "ResearchPaperNotes"
  | VNone | VStr _ => false
  end.

(** How the one agent call of a script with a response model ends,
    as the script can tell: content of the declared class, content of
    another kind, or an exception. *)
Inductive Ending :=
| ValidPayload (v : value)
| OtherContent (v : value)
| Raised (e : Py.exn).

Definition ending (cls : string) (r : reply) : Ending :=
  match raised r with
  | Some e => Raised e
  | None =>
      if isinstance (content r) cls
      then ValidPayload (content r)
      else OtherContent (content r)
  end.

(** An ending that is a success payload or a failure with kind and
    message. *)
Definition success_or_failure (e : Ending) : Prop :=
  (exists v, e = ValidPayload v) \/ (exists x, e = Raised x).

(** What researcher.py prints before it calls its agent. *)
Definition researcher_banner : list event :=
  [EPrint "--- 🔬 Gemini Research Paper Distiller ---";
   EPrint ("Analyzing paper: " +:+ researcher.paper_url +:+ Py.nl);
   EPrint ("🤖 Dr. Axiom is reading and analyzing the paper... this may take a moment."
           +:+ Py.nl)].

(** What researcher.py prints for notes of the expected class. *)
Definition cool_notes (n : ResearchPaperNotes.t) : list event :=
  [EPrint ("--- ✨ Here are your Cool Notes from Dr. Axiom ✨ ---" +:+ Py.nl);
   EPrint ("📄 Title: " +:+ ResearchPaperNotes.title n +:+ Py.nl);
   EPrint ("🧠 TL;DR: " +:+ ResearchPaperNotes.tldr n +:+ Py.nl);
   EPrint "🎯 Key Contributions:"]
  ++ map (fun c => EPrint ("   - " +:+ c)) (ResearchPaperNotes.key_contributions n)
  ++ [EPrint (Py.nl +:+ "⚙️ Methodology, Simplified:");
      EPrint ("   " +:+ ResearchPaperNotes.methodology_simplified n +:+ Py.nl);
      EPrint "🚀 Impact and Significance:";
      EPrint ("   " +:+ ResearchPaperNotes.impact_and_significance n +:+ Py.nl);
      EPrint ("🔗 Original Paper: " +:+ ResearchPaperNotes.original_paper_url n)].

(** The one call researcher.py makes. *)
Definition researcher_call : event :=
  ERun 0 [] None researcher.paper_url.

Definition researcher_reply (W : World) : reply :=
  respond W researcher.research_agent_cfg [] None researcher.paper_url
    [("original_paper_url", researcher.paper_url)].

(** What recommender.py prints before it calls its agent, and
    between the call and its [isinstance] test. *)
Definition recommender_banner : list event :=
  [EPrint "--- Gemini Recommender Agent ---";
   EPrint ("User Prompt: " +:+ recommender.prompt +:+ Py.nl);
   EPrint ("🤖 Cine-Bot is thinking..." +:+ Py.nl)].

Definition raw_object (v : value) : list event :=
  [EPrint "--- Raw Pydantic Object ---";
   EPPrint v;
   EPrint (Py.nl +:+ Py.str_mul "=" 30 +:+ Py.nl)].

Definition recommendation_lines (rec : Recommendation.t) : list event :=
  [EPrint ("🎬 Title: " +:+ Recommendation.title rec +:+ " ("
           +:+ pretty (Recommendation.year rec) +:+ ")");
   EPrint ("   📜 Summary: " +:+ Recommendation.summary rec);
   EPrint ("   🤔 Why you'll like it: " +:+ Recommendation.reason rec +:+ Py.nl)].

Definition recommender_call : event :=
  ERun 0 [] None recommender.prompt.

Definition recommender_reply (W : World) : reply :=
  respond W recommender.recommender_agent_cfg [] None recommender.prompt [].

(** A world in which every agent call returns free text instead of
    an object of the declared class, and nothing raises. *)
Definition chatty_world : World := {|
  respond := fun _ _ _ _ _ =>
    {| said := [ModelTurn "I could not open the page."];
       content := VStr "I could not open the page.";
       raised := None |};
  kb_construct := None;
  arxiv_fetch := fun qs => inl qs;
|}.

(** A failure the RetryPolicy always retries. *)
Definition transient (r : Core.RunResult) : Prop :=
  match r with
  | Core.Failure Core.Unavailable _ | Core.Failure Core.RateLimited _ => True
  | _ => False
  end.

(** The events of [n] attempts in a row, the first of them attempt
    [k]: a delay before each one but the first. *)
Fixpoint schedule_from (base_delay backoff_multiplier : Z) (k n : nat) : list Core.RetryEvent :=
  match n with
  | O => []
  | S n' =>
      Core.Attempted k ::
      match n' with
      | O => []
      | S _ =>
          Core.Slept (Core.delay_before base_delay backoff_multiplier (S k))
          :: schedule_from base_delay backoff_multiplier (S k) n'
      end
  end.

(** A model that asks for a registered tool at every step. *)
Definition always_requests_tools (generate : Core.ModelClient) (config : Core.AgentConfig) : Prop :=
  forall conv, exists step req t,
    generate conv (Core.tool_set config) (Core.output_schema config) = inl step
    /\ Core.decision step = inl req
    /\ Core.find_tool (Core.tool_set config) (Core.req_tool req) = Some t.

(** Examples for the core: a search tool, an agent that has it, a
    model that keeps asking for it, a model that asks for a tool
    nobody registered, and a reader that knows two texts. *)
Definition search_tool : Core.ToolDescriptor := {|
  Core.tool_name := "search";
  Core.parameter_schema :=
    {| Core.schema_name := "SearchArgs";
       Core.schema_fields := [Core.Field "query" Core.TStr true "what to look for"] |};
  Core.invoke := fun _ => inl (Core.DStr "three results");
|}.

Definition search_request : Core.ToolCallRequest :=
  {| Core.req_tool := "search"; Core.req_args := Core.DObj [("query", Core.DStr "dune")] |}.

Definition stray_request : Core.ToolCallRequest :=
  {| Core.req_tool := "teleport"; Core.req_args := Core.DObj [] |}.

Definition sample_config : Core.AgentConfig := {|
  Core.persona := "You are a meticulous assistant.";
  Core.instructions := ["Search."; "Answer."];
  Core.tool_set := [search_tool];
  Core.output_schema := None;
  Core.max_attempts := 3;
  Core.base_delay := 3;
  Core.backoff_multiplier := 2;
  Core.iteration_cap := 4;
|}.

Definition searching_model : Core.ModelClient :=
  fun _ _ _ => inl (Core.TextChunk "let me look" (Core.ToolCall search_request)).

Definition straying_model : Core.ModelClient :=
  fun _ _ _ => inl (Core.ToolCall stray_request).

Definition always_unavailable : nat -> Core.RunResult :=
  fun _ => Core.Failure Core.Unavailable "connection refused".

Definition toy_parse (raw : string) : option Core.data :=
  if String.eqb raw "{}" then Some (Core.DObj [])
  else if String.eqb raw "{title: Dune}" then Some (Core.DObj [("title", Core.DStr "Dune")])
  else None.

(** The vector database arxiv_genius_agent.py leaves behind: it
    is touched only when the script gets as far as
    [knowledge_base.load], and then the one table is what the load
    made of it. *)
Definition arxiv_db_after (W : World) (environ : gmap string string)
    (db : gmap (string * string) (list doc)) : gmap (string * string) (list doc) :=
  if Py.truthy (Py.getenv environ "GOOGLE_API_KEY") then
    match arxiv_genius_agent.outcome_tools W, kb_construct W with
    | Some (Py.Exception _), None =>
        recreated arxiv_genius_agent.knowledge_base
          match arxiv_fetch W (queries arxiv_genius_agent.knowledge_base) with
          | inl docs => docs
          | inr _ => []
          end
          db
    | _, _ => db
    end
  else db.

(** One world for the examples: every agent call answers with plain
    text, nothing raises, ArXiv returns the queries' own titles. *)
Definition calm_world : World := {|
  respond := fun _ _ _ _ _ =>
    {| said := [ModelTurn "ok"]; content := VStr "ok"; raised := None |};
  kb_construct := None;
  arxiv_fetch := fun qs => inl qs;
|}.

(** A world in which every agent call raises an [Exception] after
    the model has said something; the message tells which kind of
    agent was called. *)
Definition stormy_world : World := {|
  respond := fun c _ _ _ _ =>
    {| said := [ModelTurn "partial"];
       content := VNone;
       raised :=
         match tools c, knowledge c with
         | [], None => Some (Py.Exception "model unreachable")
         | [], Some _ => Some (Py.Exception "knowledge base query failed")
         | _ :: _, _ => Some (Py.Exception "tool call failed")
         end |};
  kb_construct := None;
  arxiv_fetch := fun qs => inl qs;
|}.

Definition environ_with_key : gmap string string := {[ "GOOGLE_API_KEY" := "k-123" ]}.

(** ** Theorems *)

Lemma truthy_false_cases (v : option string) :
  Py.truthy v = false <-> v = None \/ v = Some EmptyString.
Proof.
  destruct v as [[|c s]|]; simpl; split; intros H; auto;
    try discriminate; destruct H as [H|H]; discriminate.
Qed.

(** arxiv_genius_agent.py stops at its gate: one line printed,
    [exit(1)], no agent constructed. *)
Lemma arxiv_gate (W : World) environ st :
  Py.truthy (Py.getenv environ "GOOGLE_API_KEY") = false ->
  arxiv_genius_agent.script W environ st =
    (inr (Py.SystemExit 1),
     {| out := out st ++ [EPrint "🔴 ERROR: Set your GOOGLE_API_KEY environment variable"];
        heap := heap st; lancedb := lancedb st |}).
Proof.
  intros H. unfold arxiv_genius_agent.script. rewrite H. reflexivity.
Qed.

(** researcher.py stops at its gate: four lines printed, [exit(1)]. *)
Lemma researcher_gate (W : World) environ st :
  Py.truthy (Py.getenv environ "GOOGLE_API_KEY") = false ->
  fst (researcher.script W environ st) = inr (Py.SystemExit 1)
  /\ heap (snd (researcher.script W environ st)) = heap st
  /\ out (snd (researcher.script W environ st)) =
       out st ++
       [EPrint "❌ Error: GOOGLE_API_KEY environment variable is not set!";
        EPrint "Please set your Google API key:";
        EPrint "export GOOGLE_API_KEY=your_api_key_here";
        EPrint (Py.nl +:+ "Get your API key from: https://ai.google.dev/gemini-api/docs/api-key")].
Proof.
  intros H. unfold researcher.script. rewrite H. cbn.
  rewrite <- !app_assoc. auto.
Qed.

Lemma arxiv_credential_checked : credential_checked arxiv_genius_agent.script.
Proof.
  intros W environ db H. rewrite (arxiv_gate W environ (boot db) H). cbn.
  split; [exists 1%Z; split; [reflexivity | lia] |].
  split; [eexists; apply list_elem_of_here | reflexivity].
Qed.

Lemma researcher_credential_checked : credential_checked researcher.script.
Proof.
  intros W environ db H.
  destruct (researcher_gate W environ (boot db) H) as (Hr & _ & Ho).
  rewrite Hr, Ho. cbn.
  split; [exists 1%Z; split; [reflexivity | lia] |].
  split; [eexists; apply list_elem_of_here | reflexivity].
Qed.

(** What fact_checker.py does, whatever the environment holds. *)
Lemma fact_checker_trace (W : World) environ db :
  let r := respond W fact_checker.fact_checker_agent_cfg [] None fact_checker.example_claim [] in
  fst (fact_checker.script W environ (boot db)) =
    match raised r with Some e => inr (Py.Raise e) | None => inl tt end
  /\ out (snd (fact_checker.script W environ (boot db))) =
       [EPrint "--- Gemini Fact-Checker Agent ---";
        EPrint "Type your claim or question below, or type 'exit' to quit.";
        EPrint (Py.nl +:+ "Verifying claim: '" +:+ fact_checker.example_claim +:+ "'" +:+ Py.nl);
        ERun 0 [] None fact_checker.example_claim].
Proof.
  cbn. unfold fact_checker.script, fact_checker.main, print_response, call, bind. cbn.
  destruct (raised _); cbn; auto.
Qed.

(** The state after some more lines were printed. *)
Lemma print_spec (s : string) (st : state) :
  print s st = (inl tt, {| out := out st ++ [EPrint s]; heap := heap st; lancedb := lancedb st |}).
Proof. reflexivity. Qed.

Lemma prompts_app (a b : list event) : prompts (a ++ b) = prompts a ++ prompts b.
Proof. apply omap_app. Qed.

Lemma callees_app (a b : list event) : callees (a ++ b) = callees a ++ callees b.
Proof. apply omap_app. Qed.

Lemma runs_app (a b : list event) : runs (a ++ b) = runs a ++ runs b.
Proof. apply filter_app. Qed.

(** A loop whose body only prints: it ends normally, touches neither
    the agents nor the database, and adds no agent call to the trace. *)
Lemma for_each_prints {A} (l : list A) (body : A -> M unit) :
  (forall x st, exists lines,
      body x st = (inl tt, {| out := out st ++ map EPrint lines;
                              heap := heap st; lancedb := lancedb st |})) ->
  forall st, exists lines,
    for_each l body st = (inl tt, {| out := out st ++ map EPrint lines;
                                     heap := heap st; lancedb := lancedb st |}).
Proof.
  intros Hbody. induction l as [|x rest IH]; intros st.
  - exists []. cbn. rewrite app_nil_r. destruct st; reflexivity.
  - destruct (Hbody x st) as [l1 H1].
    cbn. unfold bind. rewrite H1.
    destruct (IH {| out := out st ++ map EPrint l1; heap := heap st; lancedb := lancedb st |})
      as [l2 H2].
    exists (l1 ++ l2). rewrite H2. cbn. rewrite map_app, app_assoc. reflexivity.
Qed.

Lemma prompts_prints (lines : list string) : prompts (map EPrint lines) = [].
Proof. induction lines; cbn; auto. Qed.

Lemma runs_prints (lines : list string) : runs (map EPrint lines) = [].
Proof. induction lines; cbn; auto. Qed.

Lemma show_prints (rec : Recommendation.t) (st : state) :
  exists lines,
    recommender.show rec st =
      (inl tt, {| out := out st ++ map EPrint lines; heap := heap st; lancedb := lancedb st |}).
Proof.
  eexists [_; _; _]. unfold recommender.show, bind, print, emit. cbn.
  rewrite <- !app_assoc. reflexivity.
Qed.

(** What recommender.py does, whatever the environment holds: the
    agent is called at once; what the call raises escapes. *)
Lemma recommender_reaches_agent (W : World) environ db :
  let r := respond W recommender.recommender_agent_cfg [] None recommender.prompt [] in
  fst (recommender.script W environ (boot db)) =
    match raised r with Some e => inr (Py.Raise e) | None => inl tt end
  /\ prompts (out (snd (recommender.script W environ (boot db)))) = [recommender.prompt].
Proof.
  cbn. unfold recommender.script, recommender.main, run, call, bind. cbn.
  destruct (raised _) eqn:E; cbn; [auto |].
  destruct (content _) as [| s | l | n]; cbn; auto.
  match goal with |- context [for_each ?l ?b ?st] =>
    destruct (for_each_prints l b show_prints st) as [lines ->] end.
  cbn. split; [reflexivity |]. f_equal. apply prompts_prints.
Qed.

(** C1. With [GOOGLE_API_KEY] unset, fact_checker.py and
    recommender.py go straight to their agent: the environment is
    never consulted, the agent is called with the prompt, and no
    [exit] is ever reached; so neither script has the credential gate
    that arxiv_genius_agent.py and researcher.py have. *)
Theorem C1_two_scripts_run_without_credential :
  (forall W db,
     prompts (out (snd (fact_checker.script W ∅ (boot db)))) = [fact_checker.example_claim]
     /\ forall n, fst (fact_checker.script W ∅ (boot db)) <> inr (Py.SystemExit n))
  /\ (forall W db,
       prompts (out (snd (recommender.script W ∅ (boot db)))) = [recommender.prompt]
       /\ forall n, fst (recommender.script W ∅ (boot db)) <> inr (Py.SystemExit n))
  /\ ~ credential_checked fact_checker.script
  /\ ~ credential_checked recommender.script.
Proof.
  assert (Hf : forall W db,
     prompts (out (snd (fact_checker.script W ∅ (boot db)))) = [fact_checker.example_claim]
     /\ forall n, fst (fact_checker.script W ∅ (boot db)) <> inr (Py.SystemExit n)).
  { intros W db. destruct (fact_checker_trace W ∅ db) as [Hr Ho]. cbn zeta in Hr.
    rewrite Hr, Ho. split; [reflexivity |].
    intros n. destruct (raised _); discriminate. }
  assert (Hr : forall W db,
     prompts (out (snd (recommender.script W ∅ (boot db)))) = [recommender.prompt]
     /\ forall n, fst (recommender.script W ∅ (boot db)) <> inr (Py.SystemExit n)).
  { intros W db. destruct (recommender_reaches_agent W ∅ db) as [Hr Ho]. cbn zeta in Hr.
    rewrite Hr, Ho. split; [reflexivity |].
    intros n. destruct (raised _); discriminate. }
  assert (Hk : Py.truthy (Py.getenv ∅ "GOOGLE_API_KEY") = false) by reflexivity.
  repeat split; try apply Hf; try apply Hr.
  - intros H. destruct (H calm_world ∅ ∅ Hk) as [[n [Hn _]] _].
    exact (proj2 (Hf calm_world ∅) n Hn).
  - intros H. destruct (H calm_world ∅ ∅ Hk) as [[n [Hn _]] _].
    exact (proj2 (Hr calm_world ∅) n Hn).
Qed.


(** *** arxiv_genius_agent.py: the chain of three strategies *)

Lemma filter_not_in_nil (docs : list doc) : filter (fun d => d ∉ []) docs = docs.
Proof.
  induction docs as [|d rest IH]; [reflexivity |].
  rewrite filter_cons_True by apply not_elem_of_nil. by rewrite IH.
Qed.

(** [load(recreate=True)] leaves in the table exactly what was
    fetched, whatever the table held before. *)
Lemma load_recreate (W : World) (kb : ArxivKnowledgeBase) (st : state) :
  load W kb true st =
    match arxiv_fetch W (queries kb) with
    | inr e =>
        (inr (Py.Raise e),
         {| out := out st ++ [ELoad (vector_db kb) true]; heap := heap st;
            lancedb := recreated kb [] (lancedb st) |})
    | inl docs =>
        (inl tt,
         {| out := out st ++ [ELoad (vector_db kb) true]; heap := heap st;
            lancedb := recreated kb docs (lancedb st) |})
    end.
Proof.
  unfold load, recreated. rewrite lookup_delete_eq. cbn [default].
  destruct (arxiv_fetch W (queries kb)); [| reflexivity].
  rewrite filter_not_in_nil. reflexivity.
Qed.

Lemma table_seen_kb (docs : list doc) (m : gmap (string * string) (list doc)) :
  table_seen arxiv_genius_agent.kb_agent_cfg
    (recreated arxiv_genius_agent.knowledge_base docs m) = Some docs.
Proof.
  unfold table_seen, recreated.
  cbn [knowledge arxiv_genius_agent.kb_agent_cfg mbind option_bind].
  apply lookup_insert_eq.
Qed.

(** Symbolic execution of the script: unfold the monad, then split
    on each answer of the world as the script reaches it. *)
Ltac crunch :=
  cbn -[load arxiv_genius_agent.prompt_tools arxiv_genius_agent.prompt_kb
        arxiv_genius_agent.prompt_fallback Py.str_mul].

Ltac split_world :=
  match goal with
  | |- context [match raised ?r with _ => _ end] =>
      destruct (raised r) as [[?m|?m]|] eqn:?E
  | |- context [match kb_construct ?W with _ => _ end] =>
      destruct (kb_construct W) as [[?m|?m]|] eqn:?E
  | |- context [match arxiv_fetch ?W ?q with _ => _ end] =>
      destruct (arxiv_fetch W q) as [?docs|[?m|?m]] eqn:?E
  end.

Ltac run_arxiv :=
  unfold arxiv_genius_agent.script, arxiv_genius_agent.main, print_response;
  unfold bind, try_except, arxiv_genius_agent.create_knowledge_based_agent,
    call, ret, Agent, print, emit, raise, exit, boot;
  unfold arxiv_genius_agent.outcome_tools, arxiv_genius_agent.outcome_kb,
    arxiv_genius_agent.outcome_fallback, kb_queried;
  crunch;
  change (table_seen arxiv_genius_agent.agent_cfg ?x) with (@None (list doc));
  repeat (first [ rewrite load_recreate
                | rewrite table_seen_kb
                | progress change (table_seen arxiv_genius_agent.fallback_agent_cfg ?x)
                    with (@None (list doc))
                | split_world ];
          crunch).

(** The three prompts differ, and each names the paper. *)
Lemma prompts_differ :
  arxiv_genius_agent.prompt_tools <> arxiv_genius_agent.prompt_kb
  /\ arxiv_genius_agent.prompt_tools <> arxiv_genius_agent.prompt_fallback
  /\ arxiv_genius_agent.prompt_kb <> arxiv_genius_agent.prompt_fallback.
Proof. repeat split; discriminate. Qed.

Lemma prompts_name_the_paper :
  Forall (fun p => contains arxiv_genius_agent.paper_title p = true)
    [arxiv_genius_agent.prompt_tools; arxiv_genius_agent.prompt_kb;
     arxiv_genius_agent.prompt_fallback].
Proof. repeat constructor. Qed.

(** C2, as stated, fails: when the ArxivTools strategy raises, the
    knowledge-base agent is asked a different prompt. *)
Lemma C2_counterexample :
  ~ same_input_each_entry
      (out (snd (arxiv_genius_agent.script stormy_world environ_with_key (boot ∅)))).
Proof.
  intros H. specialize (H arxiv_genius_agent.prompt_kb).
  assert (Hin : arxiv_genius_agent.prompt_kb ∈
                prompts (out (snd (arxiv_genius_agent.script stormy_world
                                     environ_with_key (boot ∅))))).
  { vm_compute. apply elem_of_cons. right. apply elem_of_cons. left. reflexivity. }
  specialize (H Hin). vm_compute in H. discriminate H.
Qed.

(** C2, amended.  With the credential present: the first strategy is
    asked [prompt_tools]; when it raises an [Exception] the
    knowledge-base agent, if it gets as far as its query, is asked
    [prompt_kb], and when that strategy raises an [Exception] the
    fallback agent is asked [prompt_fallback].  The three prompts are
    different texts built from the same paper title.  Every agent
    called is a different object and had an empty conversation when it
    was called. *)
Theorem C2_own_prompt_fresh_agent (W : World) environ db :
  Py.truthy (Py.getenv environ "GOOGLE_API_KEY") = true ->
  let tr := out (snd (arxiv_genius_agent.script W environ (boot db))) in
  prompts tr =
    match arxiv_genius_agent.outcome_tools W with
    | Some (Py.Exception _) =>
        arxiv_genius_agent.prompt_tools
        :: (if kb_queried W then [arxiv_genius_agent.prompt_kb] else [])
        ++ match arxiv_genius_agent.outcome_kb W with
           | Some (Py.Exception _) => [arxiv_genius_agent.prompt_fallback]
           | _ => []
           end
    | _ => [arxiv_genius_agent.prompt_tools]
    end
  /\ Forall (fun h => h = []) (conversations tr)
  /\ NoDup (callees tr)
  /\ (arxiv_genius_agent.prompt_tools <> arxiv_genius_agent.prompt_kb
      /\ arxiv_genius_agent.prompt_tools <> arxiv_genius_agent.prompt_fallback
      /\ arxiv_genius_agent.prompt_kb <> arxiv_genius_agent.prompt_fallback)
  /\ Forall (fun p => contains arxiv_genius_agent.paper_title p = true)
       [arxiv_genius_agent.prompt_tools; arxiv_genius_agent.prompt_kb;
        arxiv_genius_agent.prompt_fallback].
Proof.
  intros Hk. cbn zeta.
  split; [| split; [| split; [| split; [apply prompts_differ | apply prompts_name_the_paper]]]].
  - unfold arxiv_genius_agent.script. rewrite Hk. cbn [negb]. run_arxiv.
    all: reflexivity.
  - unfold arxiv_genius_agent.script. rewrite Hk. cbn [negb]. run_arxiv.
    all: repeat constructor.
  - unfold arxiv_genius_agent.script. rewrite Hk. cbn [negb]. run_arxiv.
    all: apply (bool_decide_unpack _); vm_compute; exact I.
Qed.

Lemma C2_witness :
  Py.truthy (Py.getenv environ_with_key "GOOGLE_API_KEY") = true
  /\ prompts (out (snd (arxiv_genius_agent.script stormy_world environ_with_key (boot ∅)))) =
       [arxiv_genius_agent.prompt_tools; arxiv_genius_agent.prompt_kb;
        arxiv_genius_agent.prompt_fallback].
Proof.
  assert (Hk : Py.truthy (Py.getenv environ_with_key "GOOGLE_API_KEY") = true) by reflexivity.
  split; [exact Hk |].
  rewrite (proj1 (C2_own_prompt_fresh_agent stormy_world environ_with_key ∅ Hk)).
  reflexivity.
Defined.

(** C3, as stated, fails: when all three strategies raise, the
    exception of the last one leaves the process as it is. *)
Lemma C3_counterexample :
  arxiv_genius_agent.outcome_tools stormy_world <> None
  /\ arxiv_genius_agent.outcome_kb stormy_world <> None
  /\ arxiv_genius_agent.outcome_fallback stormy_world <> None
  /\ ~ structured_end
        (fst (arxiv_genius_agent.script stormy_world environ_with_key (boot ∅))).
Proof.
  repeat split; try discriminate.
  intros H. apply (H (Py.Exception "model unreachable")). reflexivity.
Qed.

(** C3, amended.  With the credential present, the script ends
    normally after the first strategy that does not raise, having
    printed one failure line for each strategy that raised an
    [Exception] before it.  When all three raise, two failure lines
    were printed and the third exception leaves the process uncaught:
    nothing collects the errors and no failure value is built.  An
    exception that is not an [Exception] leaves the process at once. *)
Theorem C3_first_success_or_last_exception (W : World) environ db :
  Py.truthy (Py.getenv environ "GOOGLE_API_KEY") = true ->
  let r := fst (arxiv_genius_agent.script W environ (boot db)) in
  let reports := failure_reports (out (snd (arxiv_genius_agent.script W environ (boot db)))) in
  match arxiv_genius_agent.outcome_tools W with
  | None => r = inl tt /\ reports = []
  | Some (Py.BaseException m) => r = inr (Py.Raise (Py.BaseException m)) /\ reports = []
  | Some (Py.Exception m1) =>
      match arxiv_genius_agent.outcome_kb W with
      | None =>
          r = inl tt /\ reports = [EPrint ("❌ ArxivTools failed: " +:+ m1)]
      | Some (Py.BaseException m) =>
          r = inr (Py.Raise (Py.BaseException m))
          /\ reports = [EPrint ("❌ ArxivTools failed: " +:+ m1)]
      | Some (Py.Exception m2) =>
          r = match arxiv_genius_agent.outcome_fallback W with
              | None => inl tt
              | Some e => inr (Py.Raise e)
              end
          /\ reports = [EPrint ("❌ ArxivTools failed: " +:+ m1);
                        EPrint ("❌ Knowledge Base approach also failed: " +:+ m2)]
      end
  end.
Proof.
  intros Hk. cbn zeta.
  unfold arxiv_genius_agent.script. rewrite Hk. cbn [negb]. run_arxiv.
  all: simplify_eq; cbv; auto.
Qed.

Lemma C3_witness :
  Py.truthy (Py.getenv environ_with_key "GOOGLE_API_KEY") = true
  /\ fst (arxiv_genius_agent.script stormy_world environ_with_key (boot ∅)) =
       inr (Py.Raise (Py.Exception "model unreachable"))
  /\ length (failure_reports
               (out (snd (arxiv_genius_agent.script stormy_world environ_with_key (boot ∅))))) = 2.
Proof.
  assert (Hk : Py.truthy (Py.getenv environ_with_key "GOOGLE_API_KEY") = true) by reflexivity.
  split; [exact Hk |].
  pose proof (C3_first_success_or_last_exception stormy_world environ_with_key ∅ Hk) as H.
  cbn zeta in H.
  change (arxiv_genius_agent.outcome_tools stormy_world)
    with (Some (Py.Exception "tool call failed")) in H.
  change (arxiv_genius_agent.outcome_kb stormy_world)
    with (Some (Py.Exception "knowledge base query failed")) in H.
  change (arxiv_genius_agent.outcome_fallback stormy_world)
    with (Some (Py.Exception "model unreachable")) in H.
  cbv iota beta in H. destruct H as [Hr Hrep].
  split; [exact Hr |]. rewrite Hrep. reflexivity.
Defined.



(** *** researcher.py and recommender.py: one call, then a test of
    what came back *)

Lemma for_each_print {A} (f : A -> string) (l : list A) (st : state) :
  for_each l (fun x => print (f x)) st =
    (inl tt, {| out := out st ++ map (fun x => EPrint (f x)) l;
                heap := heap st; lancedb := lancedb st |}).
Proof.
  revert st. induction l as [|x rest IH]; intros st; cbn [for_each map].
  - rewrite app_nil_r. destruct st; reflexivity.
  - unfold bind. rewrite print_spec, IH. cbn. rewrite <- app_assoc. reflexivity.
Qed.

(** researcher.py with the credential present, case by case on how
    its one agent call ends. *)
Lemma researcher_trace (W : World) environ db :
  Py.truthy (Py.getenv environ "GOOGLE_API_KEY") = true ->
  let fin := researcher.script W environ (boot db) in
  length (heap (snd fin)) = 1
  /\ match raised (researcher_reply W) with
     | Some (Py.Exception m) =>
         fst fin = inl tt
         /\ out (snd fin) =
              researcher_banner ++
              [researcher_call;
               EPrint ("❌ Error occurred: " +:+ m);
               EPrint "Please check your API key and internet connection."]
     | Some (Py.BaseException m) =>
         fst fin = inr (Py.Raise (Py.BaseException m))
         /\ out (snd fin) = researcher_banner ++ [researcher_call]
     | None =>
         fst fin = inl tt
         /\ out (snd fin) =
              researcher_banner ++ researcher_call ::
              match content (researcher_reply W) with
              | VResearchPaperNotes n => cool_notes n
              | v => [EPrint "Sorry, there was an error processing the paper."; EPPrint v]
              end
     end.
Proof.
  intros Hk. cbn zeta. unfold researcher.script. rewrite Hk. cbn [negb].
  unfold researcher_reply, researcher_call, researcher_banner, cool_notes.
  unfold researcher.main, run, call, bind, try_except, ret, Agent, boot.
  cbn -[for_each researcher.paper_url].
  change (table_seen researcher.research_agent_cfg db) with (@None (list doc)).
  destruct (raised _) as [[m|m]|] eqn:E.
  3: destruct (content _) as [| s | l | n] eqn:Ec.
  all: cbn -[for_each researcher.paper_url]; auto.
  rewrite for_each_print. cbn -[for_each researcher.paper_url].
  rewrite <- !app_assoc. auto.
Qed.

Lemma show_spec (rec : Recommendation.t) (st : state) :
  recommender.show rec st =
    (inl tt, {| out := out st ++ recommendation_lines rec;
                heap := heap st; lancedb := lancedb st |}).
Proof.
  unfold recommender.show, recommendation_lines, bind, print, emit. cbn.
  rewrite <- !app_assoc. reflexivity.
Qed.

Lemma for_each_show (l : list Recommendation.t) (st : state) :
  for_each l recommender.show st =
    (inl tt, {| out := out st ++ concat (map recommendation_lines l);
                heap := heap st; lancedb := lancedb st |}).
Proof.
  revert st. induction l as [|x rest IH]; intros st; cbn [for_each map concat].
  - rewrite app_nil_r. destruct st; reflexivity.
  - unfold bind. rewrite show_spec, IH. cbn [out heap lancedb].
    rewrite <- app_assoc. reflexivity.
Qed.

(** recommender.py, case by case on how its one agent call ends. *)
Lemma recommender_trace (W : World) environ db :
  let fin := recommender.script W environ (boot db) in
  match raised (recommender_reply W) with
  | Some e =>
      fst fin = inr (Py.Raise e)
      /\ out (snd fin) = recommender_banner ++ [recommender_call]
  | None =>
      fst fin = inl tt
      /\ out (snd fin) =
           recommender_banner ++ recommender_call ::
           raw_object (content (recommender_reply W)) ++
           match content (recommender_reply W) with
           | VRecommendationList l =>
               EPrint ("--- Here are my recommendations for you! ---" +:+ Py.nl)
               :: concat (map recommendation_lines (RecommendationList.recommendations l))
           | _ => [EPrint "Sorry, I couldn't generate recommendations in the correct format."]
           end
  end.
Proof.
  cbn zeta. unfold recommender_reply, recommender_call, recommender_banner, raw_object.
  unfold recommender.script, recommender.main, run, call, bind, ret, Agent, boot.
  cbn -[for_each recommender.prompt concat].
  change (table_seen recommender.recommender_agent_cfg db) with (@None (list doc)).
  destruct (raised _) as [e|] eqn:E.
  2: destruct (content _) as [| s | l | n] eqn:Ec.
  all: cbn -[for_each recommender.prompt concat]; auto.
  rewrite for_each_show. cbn -[for_each recommender.prompt concat]. auto.
Qed.

Lemma runs_map_print {A} (f : A -> string) (l : list A) :
  runs (map (fun x => EPrint (f x)) l) = [].
Proof. induction l; cbn; auto. Qed.

Lemma runs_cool_notes (n : ResearchPaperNotes.t) : runs (cool_notes n) = [].
Proof.
  unfold cool_notes. rewrite !runs_app, runs_map_print. reflexivity.
Qed.

(** C9.  With the credential present, researcher.py constructs one
    agent and calls it once, whatever happens.  When that call raises
    an [Exception], the script prints its two diagnostic lines after
    the call and runs off its end: exit status 0, no second agent, no
    second call. *)
Theorem C9_researcher_single_strategy (W : World) environ db :
  Py.truthy (Py.getenv environ "GOOGLE_API_KEY") = true ->
  let fin := researcher.script W environ (boot db) in
  runs (out (snd fin)) = [researcher_call]
  /\ length (heap (snd fin)) = 1
  /\ forall m, raised (researcher_reply W) = Some (Py.Exception m) ->
       fst fin = inl tt
       /\ exit_status (fst fin) = Some 0%Z
       /\ out (snd fin) =
            researcher_banner ++
            [researcher_call;
             EPrint ("❌ Error occurred: " +:+ m);
             EPrint "Please check your API key and internet connection."].
Proof.
  intros Hk. cbn zeta.
  destruct (researcher_trace W environ db Hk) as [Hheap Hcases]. cbn zeta in Hcases.
  split; [| split; [exact Hheap |]].
  - destruct (raised (researcher_reply W)) as [[m|m]|].
    + destruct Hcases as [_ ->]. reflexivity.
    + destruct Hcases as [_ ->]. reflexivity.
    + destruct Hcases as [_ ->].
      destruct (content (researcher_reply W)) as [| s | l | n]; try reflexivity.
      change (researcher_banner ++ researcher_call :: cool_notes n)
        with (researcher_banner ++ [researcher_call] ++ cool_notes n).
      rewrite !runs_app, runs_cool_notes. reflexivity.
  - intros m Hm. rewrite Hm in Hcases. destruct Hcases as [Hr Ho].
    rewrite Hr, Ho. auto.
Qed.

Lemma C9_witness :
  Py.truthy (Py.getenv environ_with_key "GOOGLE_API_KEY") = true
  /\ fst (researcher.script stormy_world environ_with_key (boot ∅)) = inl tt
  /\ runs (out (snd (researcher.script stormy_world environ_with_key (boot ∅)))) =
       [researcher_call].
Proof.
  assert (Hk : Py.truthy (Py.getenv environ_with_key "GOOGLE_API_KEY") = true) by reflexivity.
  split; [exact Hk |].
  destruct (C9_researcher_single_strategy stormy_world environ_with_key ∅ Hk)
    as (Hruns & _ & Hexc).
  split; [| exact Hruns].
  exact (proj1 (Hexc "tool call failed" eq_refl)).
Defined.

(** C6, as stated, fails: researcher.py can get back plain text.
    That is no object of the declared class and no exception; the
    script takes its [else] branch, prints its apology and the raw
    value, and ends normally. *)
Lemma C6_counterexample :
  ~ success_or_failure (ending "ResearchPaperNotes" (researcher_reply chatty_world))
  /\ fst (researcher.script chatty_world environ_with_key (boot ∅)) = inl tt
  /\ out (snd (researcher.script chatty_world environ_with_key (boot ∅))) =
       researcher_banner ++
       [researcher_call;
        EPrint "Sorry, there was an error processing the paper.";
        EPPrint (VStr "I could not open the page.")].
Proof.
  split; [| split; reflexivity].
  intros [[v H] | [x H]]; discriminate H.
Qed.

(** C6, amended.  The one agent call of researcher.py and of
    recommender.py ends in exactly one of three ways, and the script
    does a different thing for each: content of the declared class
    (its fields are printed), content of any other kind (the apology
    is printed; researcher.py also prints the raw value), or an
    exception (researcher.py catches an [Exception] and prints its
    diagnostic; in recommender.py it leaves the process). *)
Theorem C6_three_endings (W : World) environ db :
  Py.truthy (Py.getenv environ "GOOGLE_API_KEY") = true ->
  let fin := researcher.script W environ (boot db) in
  let fin' := recommender.script W environ (boot db) in
  match ending "ResearchPaperNotes" (researcher_reply W) with
  | ValidPayload v =>
      exists n, v = VResearchPaperNotes n
        /\ fst fin = inl tt
        /\ out (snd fin) = researcher_banner ++ researcher_call :: cool_notes n
  | OtherContent v =>
      (forall n, v <> VResearchPaperNotes n)
      /\ fst fin = inl tt
      /\ out (snd fin) =
           researcher_banner ++
           [researcher_call;
            EPrint "Sorry, there was an error processing the paper.";
            EPPrint v]
  | Raised (Py.Exception m) =>
      fst fin = inl tt
      /\ out (snd fin) =
           researcher_banner ++
           [researcher_call;
            EPrint ("❌ Error occurred: " +:+ m);
            EPrint "Please check your API key and internet connection."]
  | Raised (Py.BaseException m) =>
      fst fin = inr (Py.Raise (Py.BaseException m))
      /\ out (snd fin) = researcher_banner ++ [researcher_call]
  end
  /\ match ending "RecommendationList" (recommender_reply W) with
     | ValidPayload v =>
         exists l, v = VRecommendationList l
           /\ fst fin' = inl tt
           /\ out (snd fin') =
                recommender_banner ++ recommender_call :: raw_object v ++
                EPrint ("--- Here are my recommendations for you! ---" +:+ Py.nl)
                :: concat (map recommendation_lines (RecommendationList.recommendations l))
     | OtherContent v =>
         (forall l, v <> VRecommendationList l)
         /\ fst fin' = inl tt
         /\ out (snd fin') =
              recommender_banner ++ recommender_call :: raw_object v ++
              [EPrint "Sorry, I couldn't generate recommendations in the correct format."]
     | Raised e =>
         fst fin' = inr (Py.Raise e)
         /\ out (snd fin') = recommender_banner ++ [recommender_call]
     end.
Proof.
  intros Hk. cbn zeta. split.
  - destruct (researcher_trace W environ db Hk) as [_ H]. cbn zeta in H.
    unfold ending. destruct (raised (researcher_reply W)) as [[m|m]|]; [exact H | exact H |].
    destruct H as [Hr Ho].
    destruct (content (researcher_reply W)) as [| s | l | n]; cbn.
    + repeat split; [discriminate | exact Hr | exact Ho].
    + repeat split; [discriminate | exact Hr | exact Ho].
    + repeat split; [discriminate | exact Hr | exact Ho].
    + exists n. auto.
  - pose proof (recommender_trace W environ db) as H. cbn zeta in H.
    unfold ending. destruct (raised (recommender_reply W)) as [e|]; [exact H |].
    destruct H as [Hr Ho].
    destruct (content (recommender_reply W)) as [| s | l | n]; cbn.
    + repeat split; [discriminate | exact Hr | exact Ho].
    + repeat split; [discriminate | exact Hr | exact Ho].
    + exists l. auto.
    + repeat split; [discriminate | exact Hr | exact Ho].
Qed.

Lemma C6_witness :
  Py.truthy (Py.getenv environ_with_key "GOOGLE_API_KEY") = true
  /\ ending "ResearchPaperNotes" (researcher_reply chatty_world) =
       OtherContent (VStr "I could not open the page.")
  /\ fst (researcher.script chatty_world environ_with_key (boot ∅)) = inl tt.
Proof.
  assert (Hk : Py.truthy (Py.getenv environ_with_key "GOOGLE_API_KEY") = true) by reflexivity.
  split; [exact Hk |]. split; [reflexivity |].
  pose proof (proj1 (C6_three_endings chatty_world environ_with_key ∅ Hk)) as H.
  change (ending "ResearchPaperNotes" (researcher_reply chatty_world))
    with (OtherContent (VStr "I could not open the page.")) in H.
  cbv iota beta in H. exact (proj1 (proj2 H)).
Defined.

(** *** The execution core: RetryPolicy *)

(** Whatever the attempts return, the log of a retried run is a
    schedule: attempts numbered from [k], each but the first preceded
    by the delay of its number. *)
Lemma retry_from_schedule (attempt : nat -> Core.RunResult) (base mult : Z) :
  forall left k after log,
    exists n, n <= left /\ (0 < left -> 0 < n)
      /\ snd (Core.retry_from attempt base mult left k after log) =
           log ++ schedule_from base mult k n.
Proof.
  induction left as [|left IH]; intros k after log.
  - exists 0. cbn. rewrite app_nil_r. split; [lia | split; [lia | reflexivity]].
  - cbn [Core.retry_from].
    destruct (attempt k) as [p | kind message];
      [exists 1; cbn; split; [lia | split; [lia | reflexivity]] |].
    destruct (Core.retryable kind after);
      [| exists 1; cbn; split; [lia | split; [lia | reflexivity]]].
    destruct left as [|left'];
      [exists 1; cbn; split; [lia | split; [lia | reflexivity]] |].
    destruct (IH (S k) (Core.defect kind)
                ((log ++ [Core.Attempted k]) ++
                 [Core.Slept (Core.delay_before base mult (S k))]))
      as (n & Hn & Hpos & Hlog).
    exists (S n). split; [lia | split; [lia |]].
    rewrite Hlog. destruct n as [|n']; [lia |].
    cbn [schedule_from]. rewrite <- !app_assoc. reflexivity.
Qed.

(** When every attempt fails in a way that is always retried, all
    [left] attempts are made and the run ends in [RetriesExhausted]. *)
Lemma retry_from_transient (attempt : nat -> Core.RunResult) (base mult : Z) :
  (forall k, transient (attempt k)) ->
  forall left k after log,
    snd (Core.retry_from attempt base mult left k after log) =
      log ++ schedule_from base mult k left
    /\ exists message,
         fst (Core.retry_from attempt base mult left k after log) =
           Core.Failure Core.RetriesExhausted message.
Proof.
  intros Hall. induction left as [|left IH]; intros k after log.
  - cbn. rewrite app_nil_r. eauto.
  - cbn [Core.retry_from]. specialize (Hall k).
    destruct (attempt k) as [p | kind message]; [destruct Hall |].
    destruct kind; try destruct Hall; cbn [Core.retryable].
    all: destruct left as [|left']; [cbn; eauto |].
    all: match goal with
         | |- context [Core.retry_from _ _ _ _ ?k' ?a ?l] =>
             destruct (IH k' a l) as [Hlog Hres]
         end.
    all: rewrite Hlog; split; [| exact Hres].
    all: cbn [schedule_from]; rewrite <- !app_assoc; reflexivity.
Qed.

(** C5.  The delay before attempt [k >= 2] is
    [base_delay * backoff_multiplier ^ (k - 2)].  The log of any run
    is a schedule: delays stand only between attempts, each is the
    delay of the attempt that follows it, and none precedes attempt 1.
    With base delay 3, multiplier 2 and 3 attempts (what the retry
    keywords of the ArxivTools agent read as), a run whose attempts
    all fail transiently sleeps 3 and then 6 seconds. *)
Theorem C5_backoff_schedule (attempt : nat -> Core.RunResult) :
  (forall k, transient (attempt k)) ->
  (forall base mult k, 2 <= k ->
     Core.delay_before base mult k = (base * mult ^ (Z.of_nat k - 2))%Z)
  /\ (forall (any : nat -> Core.RunResult) base mult max_attempts,
       exists n, n <= max_attempts
         /\ snd (Core.run_with_retry any base mult max_attempts) =
              schedule_from base mult 1 n)
  /\ Core.retry_parameters arxiv_genius_agent.agent_cfg = Some (3, 3%Z, 2%Z)
  /\ snd (Core.run_with_retry attempt 3 2 3) =
       [Core.Attempted 1; Core.Slept 3; Core.Attempted 2; Core.Slept 6; Core.Attempted 3]
  /\ Core.delays (snd (Core.run_with_retry attempt 3 2 3)) = [3%Z; 6%Z]
  /\ Core.attempts_made (snd (Core.run_with_retry attempt 3 2 3)) = 3.
Proof.
  intros Hall.
  assert (Hlog : snd (Core.run_with_retry attempt 3 2 3) =
                 [Core.Attempted 1; Core.Slept 3; Core.Attempted 2;
                  Core.Slept 6; Core.Attempted 3]).
  { unfold Core.run_with_retry.
    rewrite (proj1 (retry_from_transient attempt 3 2 Hall 3 1 false [])).
    reflexivity. }
  split; [| split; [| split; [reflexivity | split; [exact Hlog |]]]].
  - intros base mult k Hk. unfold Core.delay_before.
    replace (Z.of_nat (k - 2)) with (Z.of_nat k - 2)%Z by lia. reflexivity.
  - intros any base mult max_attempts. unfold Core.run_with_retry.
    destruct (retry_from_schedule any base mult max_attempts 1 false [])
      as (n & Hn & _ & Hs).
    exists n. split; [exact Hn | exact Hs].
  - rewrite Hlog. split; reflexivity.
Qed.

Lemma C5_witness :
  (forall k, transient (always_unavailable k))
  /\ Core.delays (snd (Core.run_with_retry always_unavailable 3 2 3)) = [3%Z; 6%Z].
Proof.
  assert (H : forall k, transient (always_unavailable k)) by (intros k; exact I).
  split; [exact H |].
  exact (proj1 (proj2 (proj2 (proj2 (proj2 (C5_backoff_schedule always_unavailable H)))))).
Defined.

(** *** The execution core: Orchestrator and ToolRegistry *)

(** [dispatch] answers [UnknownTool] exactly for a name the registry
    does not hold, and then the detail is that name. *)
Lemma dispatch_unknown (registry : list Core.ToolDescriptor) (req : Core.ToolCallRequest) :
  Core.find_tool registry (Core.req_tool req) = None ->
  Core.dispatch registry req = Core.ToolFailure Core.UnknownTool (Core.req_tool req).
Proof. intros H. unfold Core.dispatch. rewrite H. reflexivity. Qed.

Lemma dispatch_known (registry : list Core.ToolDescriptor) (req : Core.ToolCallRequest) t :
  Core.find_tool registry (Core.req_tool req) = Some t ->
  forall detail, Core.dispatch registry req <> Core.ToolFailure Core.UnknownTool detail.
Proof.
  intros H detail. unfold Core.dispatch. rewrite H.
  destruct (Core.coerce _ _); [destruct (Core.invoke t _) |]; discriminate.
Qed.

Lemma dispatch_unknown_inv (registry : list Core.ToolDescriptor) (req : Core.ToolCallRequest) detail :
  Core.dispatch registry req = Core.ToolFailure Core.UnknownTool detail ->
  Core.find_tool registry (Core.req_tool req) = None /\ detail = Core.req_tool req.
Proof.
  intros H. destruct (Core.find_tool registry (Core.req_tool req)) as [t|] eqn:E.
  - exfalso. exact (dispatch_known registry req t E detail H).
  - rewrite (dispatch_unknown registry req E) in H. injection H as <-. auto.
Qed.

Section OrchestratorFacts.

Variable parse : string -> option Core.data.
Variable generate : Core.ModelClient.
Variable config : Core.AgentConfig.

(** The loop dispatches at most [budget] more requests. *)
Lemma awaiting_model_bound :
  forall budget log,
    Core.round_trips (snd (Core.awaiting_model parse generate config budget log))
    <= Core.round_trips log + budget.
Proof.
  unfold Core.round_trips.
  induction budget as [|budget IH]; intros log; cbn [Core.awaiting_model].
  - destruct (generate _ _ _) as [step | [kind message]]; cbn; [| lia].
    destruct (Core.decision step); cbn; lia.
  - destruct (generate _ _ _) as [step | [kind message]]; cbn; [| lia].
    destruct (Core.decision step) as [req | raw]; cbn; [| lia].
    destruct (Core.dispatch (Core.tool_set config) req) as [payload | kind detail].
    + etransitivity; [apply IH |]. cbn. rewrite length_app. cbn. lia.
    + destruct kind.
      4: { cbn. rewrite length_app. cbn. lia. }
      all: etransitivity; [apply IH |]; cbn; rewrite length_app; cbn; lia.
Qed.

(** Against a model that always asks for a registered tool the loop
    uses up its budget and stops with [IterationLimitExceeded]. *)
Lemma awaiting_model_exhausts :
  always_requests_tools generate config ->
  forall budget log,
    (exists message,
       fst (Core.awaiting_model parse generate config budget log) =
         Core.Failure Core.IterationLimitExceeded message)
    /\ Core.round_trips (snd (Core.awaiting_model parse generate config budget log)) =
         Core.round_trips log + budget.
Proof.
  intros Hall. unfold Core.round_trips.
  induction budget as [|budget IH]; intros log; cbn [Core.awaiting_model].
  - destruct (Hall (Core.conversation log)) as (step & req & t & -> & Hd & Ht).
    cbn. rewrite Hd. cbn. split; [eauto | lia].
  - destruct (Hall (Core.conversation log)) as (step & req & t & -> & Hd & Ht).
    cbn. rewrite Hd.
    pose proof (dispatch_known (Core.tool_set config) req t Ht) as Hknown.
    destruct (Core.dispatch (Core.tool_set config) req) as [payload | kind detail].
    + match goal with |- context [Core.awaiting_model _ _ _ _ ?l] =>
        destruct (IH l) as [Hres Hlen] end.
      split; [exact Hres |]. rewrite Hlen. cbn. rewrite length_app. cbn. lia.
    + destruct kind.
      4: { exfalso. exact (Hknown detail eq_refl). }
      all: match goal with |- context [Core.awaiting_model _ _ _ _ ?l] =>
             destruct (IH l) as [Hres Hlen] end.
      all: split; [exact Hres |]; rewrite Hlen; cbn; rewrite length_app; cbn; lia.
Qed.

(** As long as every request dispatched so far named a registered
    tool: if the finished run has dispatched a request for a tool the
    registry does not hold, the run ended in [UnknownTool], naming it. *)
Lemma awaiting_model_unknown :
  forall budget log,
    Forall (fun d => Core.find_tool (Core.tool_set config) (Core.req_tool (fst d)) <> None)
      (Core.dispatched log) ->
    forall req res,
      (req, res) ∈ Core.dispatched (snd (Core.awaiting_model parse generate config budget log)) ->
      Core.find_tool (Core.tool_set config) (Core.req_tool req) = None ->
      fst (Core.awaiting_model parse generate config budget log) =
        Core.Failure Core.UnknownTool (Core.req_tool req).
Proof.
  assert (Hold : forall (l : list (Core.ToolCallRequest * Core.ToolCallResult)) req res,
             Forall (fun d => Core.find_tool (Core.tool_set config)
                                (Core.req_tool (fst d)) <> None) l ->
             (req, res) ∈ l ->
             Core.find_tool (Core.tool_set config) (Core.req_tool req) = None -> False).
  { intros l req res Hl Hin Hnone. rewrite Forall_forall in Hl.
    exact (Hl (req, res) Hin Hnone). }
  induction budget as [|budget IH]; intros log Hlog req res; cbn [Core.awaiting_model].
  - destruct (generate _ _ _) as [step | [kind message]]; cbn;
      [destruct (Core.decision step); cbn |];
      intros Hin Hnone; exfalso; exact (Hold _ req res Hlog Hin Hnone).
  - destruct (generate _ _ _) as [step | [kind message]]; cbn;
      [| intros Hin Hnone; exfalso; exact (Hold _ req res Hlog Hin Hnone)].
    destruct (Core.decision step) as [req0 | raw]; cbn;
      [| intros Hin Hnone; exfalso; exact (Hold _ req res Hlog Hin Hnone)].
    destruct (Core.dispatch (Core.tool_set config) req0) as [payload | kind detail] eqn:Hd.
    + apply IH. cbn. apply Forall_app. split; [exact Hlog |].
      constructor; [| constructor]. cbn. intros Hnone.
      rewrite (dispatch_unknown _ _ Hnone) in Hd. discriminate Hd.
    + destruct kind.
      4: { cbn. intros Hin Hnone.
           destruct (dispatch_unknown_inv _ _ _ Hd) as [_ ->].
           apply elem_of_app in Hin as [Hin | Hin];
             [exfalso; exact (Hold _ req res Hlog Hin Hnone) |].
           apply list_elem_of_singleton in Hin. injection Hin as -> _. reflexivity. }
      all: apply IH; cbn; apply Forall_app; (split; [exact Hlog |]).
      all: constructor; [| constructor]; cbn; intros Hnone.
      all: rewrite (dispatch_unknown _ _ Hnone) in Hd; discriminate Hd.
Qed.

End OrchestratorFacts.

(** C7.  A run never makes more round-trips than the iteration cap
    of its configuration; and against a model that asks for a
    registered tool at every step it makes exactly that many and ends
    in [IterationLimitExceeded]. *)
Theorem C7_iteration_cap (parse : string -> option Core.data) (generate : Core.ModelClient)
    (config : Core.AgentConfig) (task_input : string) (side_context : list (string * string)) :
  Core.round_trips (snd (Core.orchestrate parse generate config task_input side_context))
    <= Core.iteration_cap config
  /\ (always_requests_tools generate config ->
      (exists message,
         fst (Core.orchestrate parse generate config task_input side_context) =
           Core.Failure Core.IterationLimitExceeded message)
      /\ Core.round_trips (snd (Core.orchestrate parse generate config task_input side_context)) =
           Core.iteration_cap config).
Proof.
  unfold Core.orchestrate. split.
  - etransitivity; [apply awaiting_model_bound |]. cbn. lia.
  - intros Hall.
    match goal with |- context [Core.awaiting_model _ _ _ ?b ?l] =>
      destruct (awaiting_model_exhausts parse generate config Hall b l) as [Hres Hlen] end.
    split; [exact Hres |]. rewrite Hlen. reflexivity.
Qed.

Lemma C7_witness :
  always_requests_tools searching_model sample_config
  /\ Core.round_trips
       (snd (Core.orchestrate toy_parse searching_model sample_config "find dune" [])) = 4.
Proof.
  assert (H : always_requests_tools searching_model sample_config).
  { intros conv. exists (Core.TextChunk "let me look" (Core.ToolCall search_request)),
      search_request, search_tool. repeat split. }
  split; [exact H |].
  exact (proj2 (proj2 (C7_iteration_cap toy_parse searching_model sample_config
                         "find dune" []) H)).
Defined.

(** C8.  If the first attempt of a run dispatches a request that
    names a tool the registry does not hold, then, whatever
    [max_attempts >= 1] is, the run is over after that one attempt and
    its result is [Failure UnknownTool], naming the tool: the
    RetryPolicy makes no second attempt and never sleeps. *)
Theorem C8_unknown_tool_not_retried (parse : string -> option Core.data)
    (models : nat -> Core.ModelClient) (config : Core.AgentConfig)
    (task_input : string) (side_context : list (string * string))
    (req : Core.ToolCallRequest) (res : Core.ToolCallResult) :
  1 <= Core.max_attempts config ->
  (req, res) ∈ Core.dispatched
                 (snd (Core.orchestrate parse (models 1) config task_input side_context)) ->
  Core.find_tool (Core.tool_set config) (Core.req_tool req) = None ->
  Core.run parse models config task_input side_context =
    (Core.Failure Core.UnknownTool (Core.req_tool req), [Core.Attempted 1])
  /\ Core.attempts_made (snd (Core.run parse models config task_input side_context)) = 1
  /\ Core.delays (snd (Core.run parse models config task_input side_context)) = [].
Proof.
  intros Hmax Hin Hnone.
  assert (Hfirst : fst (Core.orchestrate parse (models 1) config task_input side_context) =
                   Core.Failure Core.UnknownTool (Core.req_tool req)).
  { unfold Core.orchestrate in *.
    eapply awaiting_model_unknown; [constructor | exact Hin | exact Hnone]. }
  assert (Hrun : Core.run parse models config task_input side_context =
                 (Core.Failure Core.UnknownTool (Core.req_tool req), [Core.Attempted 1])).
  { unfold Core.run, Core.run_with_retry.
    destruct (Core.max_attempts config) as [|n]; [lia |].
    cbn [Core.retry_from]. rewrite Hfirst. reflexivity. }
  rewrite Hrun. auto.
Qed.

Lemma C8_witness :
  1 <= Core.max_attempts sample_config
  /\ Core.find_tool (Core.tool_set sample_config) (Core.req_tool stray_request) = None
  /\ Core.run toy_parse (fun _ => straying_model) sample_config "find dune" [] =
       (Core.Failure Core.UnknownTool "teleport", [Core.Attempted 1]).
Proof.
  assert (H1 : 1 <= Core.max_attempts sample_config) by (cbn; lia).
  assert (H2 : Core.find_tool (Core.tool_set sample_config) (Core.req_tool stray_request) = None)
    by reflexivity.
  split; [exact H1 |]. split; [exact H2 |].
  refine (proj1 (C8_unknown_tool_not_retried toy_parse (fun _ => straying_model)
                   sample_config "find dune" [] stray_request
                   (Core.ToolFailure Core.UnknownTool "teleport") H1 _ H2)).
  cbn. apply list_elem_of_here.
Defined.

(** *** The execution core: ResponseValidator *)

(** Induction over field types that reaches the types of the fields
    of a nested model. *)
Section ftype_nested_ind.

Variable P : Core.ftype -> Prop.
Hypothesis HStr : P Core.TStr.
Hypothesis HInt : P Core.TInt.
Hypothesis HList : forall e, P e -> P (Core.TList e).
Hypothesis HModel : forall fs, Forall (fun f => P (Core.ty f)) fs -> P (Core.TModel fs).

Fixpoint ftype_nested_ind (t : Core.ftype) : P t :=
  match t with
  | Core.TStr => HStr
  | Core.TInt => HInt
  | Core.TList e => HList e (ftype_nested_ind e)
  | Core.TModel fs =>
      HModel fs
        ((fix go (l : list (Core.field_of Core.ftype)) : Forall (fun f => P (Core.ty f)) l :=
            match l with
            | [] => @List.Forall_nil _ _
            | f :: rest =>
                @List.Forall_cons _ _ f rest (ftype_nested_ind (Core.ty f)) (go rest)
            end) fs)
  end.

End ftype_nested_ind.

Lemma member_head (k k' : string) (v : Core.data) (o : list (string * Core.data)) :
  Core.member k ((k', v) :: o) = if String.eqb k k' then Some v else Core.member k o.
Proof. reflexivity. Qed.

(** A field the walk did not come across is not in the result. *)
Lemma coerce_fields_absent (check : Core.ftype -> Core.data -> option Core.data)
    (o : list (string * Core.data)) (n : string) :
  forall fs o',
    Core.coerce_fields check o fs = Some o' ->
    forallb (fun g => negb (String.eqb n (Core.name g))) fs = true ->
    Core.member n o' = None.
Proof.
  induction fs as [|f rest IH]; intros o' Hc Hn; cbn in Hc, Hn.
  - injection Hc as <-. reflexivity.
  - apply andb_true_iff in Hn as [Hf Hrest].
    destruct (Core.member (Core.name f) o) as [v|].
    + destruct (check (Core.ty f) v) as [v'|]; [| discriminate].
      destruct (Core.coerce_fields check o rest) as [rest'|]; [| discriminate].
      injection Hc as <-. rewrite member_head.
      destruct (String.eqb n (Core.name f)); [discriminate |]. apply IH; auto.
    + destruct (Core.required f); [discriminate |]. apply IH; auto.
Qed.

(** An entry under a name that none of the fields has does not
    matter to them. *)
Lemma has_fields_skip (has : Core.ftype -> Core.data -> bool) (n : string) (v : Core.data)
    (o : list (string * Core.data)) :
  forall fs,
    forallb (fun g => negb (String.eqb n (Core.name g))) fs = true ->
    Core.has_fields has ((n, v) :: o) fs = Core.has_fields has o fs.
Proof.
  induction fs as [|f rest IH]; intros Hn; cbn in Hn; [reflexivity |].
  apply andb_true_iff in Hn as [Hf Hrest].
  cbn [Core.has_fields]. rewrite member_head, (IH Hrest).
  rewrite String.eqb_sym. destruct (String.eqb n (Core.name f)); [discriminate | reflexivity].
Qed.

Lemma coerce_fields_has :
  forall fs,
    Core.distinct_fields Core.well_formed fs = true ->
    Forall (fun f => Core.well_formed (Core.ty f) = true ->
                     forall v v', Core.coerce (Core.ty f) v = Some v' ->
                                  Core.has_type (Core.ty f) v' = true) fs ->
    forall o o',
      Core.coerce_fields Core.coerce o fs = Some o' ->
      Core.has_fields Core.has_type o' fs = true.
Proof.
  induction fs as [|f rest IH]; intros Hd Hall o o' Hc; [reflexivity |].
  cbn in Hd. apply andb_true_iff in Hd as [Hd Hrest].
  apply andb_true_iff in Hd as [Hnames Hwf].
  inversion Hall as [| ? ? Hf Hall']; subst.
  cbn in Hc. cbn [Core.has_fields].
  destruct (Core.member (Core.name f) o) as [v|].
  - destruct (Core.coerce (Core.ty f) v) as [v'|] eqn:Hv; [| discriminate].
    destruct (Core.coerce_fields Core.coerce o rest) as [rest'|] eqn:Hr; [| discriminate].
    injection Hc as <-. rewrite member_head, String.eqb_refl.
    rewrite (Hf Hwf v v' Hv). rewrite has_fields_skip by exact Hnames.
    cbn. exact (IH Hrest Hall' o rest' Hr).
  - destruct (Core.required f) eqn:Hreq; [discriminate |].
    rewrite (coerce_fields_absent Core.coerce o (Core.name f) rest o' Hc Hnames).
    cbn. exact (IH Hrest Hall' o o' Hc).
Qed.

Lemma coerce_items_has (e : Core.ftype) :
  (forall v v', Core.coerce e v = Some v' -> Core.has_type e v' = true) ->
  forall l l',
    Core.coerce_items (Core.coerce e) l = Some l' ->
    forallb (Core.has_type e) l' = true.
Proof.
  intros He. induction l as [|x rest IH]; intros l' Hc; cbn in Hc.
  - injection Hc as <-. reflexivity.
  - destruct (Core.coerce e x) as [x'|] eqn:Hx; [| discriminate].
    destruct (Core.coerce_items (Core.coerce e) rest) as [rest'|]; [| discriminate].
    injection Hc as <-. cbn. rewrite (He x x' Hx). exact (IH rest' eq_refl).
Qed.

(** What the type check lets through has the type, all the way down. *)
Lemma coerce_has_type :
  forall t, Core.well_formed t = true ->
    forall v v', Core.coerce t v = Some v' -> Core.has_type t v' = true.
Proof.
  induction t as [| | e IH | fs IH] using ftype_nested_ind; intros Hwf v v' Hc.
  - destruct v; try discriminate. injection Hc as <-. reflexivity.
  - destruct v; try discriminate. injection Hc as <-. reflexivity.
  - destruct v as [| | | l |]; try discriminate. cbn in Hc.
    destruct (Core.coerce_items (Core.coerce e) l) as [l'|] eqn:Hl; [| discriminate].
    injection Hc as <-. cbn. exact (coerce_items_has e (IH Hwf) l l' Hl).
  - destruct v as [| | | | o]; try discriminate. cbn in Hc.
    destruct (Core.coerce_fields Core.coerce o fs) as [o'|] eqn:Ho; [| discriminate].
    injection Hc as <-. cbn. exact (coerce_fields_has fs Hwf IH o o' Ho).
Qed.

(** In an object with the fields' shape every required field is there. *)
Lemma has_fields_required (has : Core.ftype -> Core.data -> bool) (o : list (string * Core.data)) :
  forall fs, Core.has_fields has o fs = true ->
    forall f, f ∈ fs -> Core.required f = true ->
      exists v, Core.member (Core.name f) o = Some v /\ has (Core.ty f) v = true.
Proof.
  induction fs as [|g rest IH]; intros Hh f Hin Hreq.
  - apply elem_of_nil in Hin. contradiction.
  - cbn in Hh. apply andb_true_iff in Hh as [Hg Hrest].
    apply elem_of_cons in Hin as [-> | Hin]; [| exact (IH Hrest f Hin Hreq)].
    destruct (Core.member (Core.name g) o) as [v|]; [eauto |].
    rewrite Hreq in Hg. discriminate.
Qed.

(** A required field that the object lacks fails the whole walk. *)
Lemma coerce_fields_missing (check : Core.ftype -> Core.data -> option Core.data)
    (o : list (string * Core.data)) :
  forall fs f, f ∈ fs -> Core.required f = true ->
    Core.member (Core.name f) o = None ->
    Core.coerce_fields check o fs = None.
Proof.
  induction fs as [|g rest IH]; intros f Hin Hreq Hnone.
  - apply elem_of_nil in Hin. contradiction.
  - cbn. apply elem_of_cons in Hin as [<- | Hin].
    + rewrite Hnone, Hreq. reflexivity.
    + rewrite (IH f Hin Hreq Hnone).
      destruct (Core.member (Core.name g) o) as [v|].
      * destruct (check (Core.ty g) v); reflexivity.
      * destruct (Core.required g); reflexivity.
Qed.

(** A run that succeeds hands out what state [Validating] made of
    some final answer. *)
Lemma awaiting_model_success (parse : string -> option Core.data) (generate : Core.ModelClient)
    (config : Core.AgentConfig) :
  forall budget log p,
    fst (Core.awaiting_model parse generate config budget log) = Core.Success p ->
    exists raw, Core.validating parse config raw = Core.Success p.
Proof.
  induction budget as [|budget IH]; intros log p; cbn [Core.awaiting_model].
  - destruct (generate _ _ _) as [step | [kind message]]; cbn; [| discriminate].
    destruct (Core.decision step) as [req | raw]; cbn; [discriminate | eauto].
  - destruct (generate _ _ _) as [step | [kind message]]; cbn; [| discriminate].
    destruct (Core.decision step) as [req | raw]; cbn; [| eauto].
    destruct (Core.dispatch (Core.tool_set config) req) as [payload | kind detail];
      [apply IH |].
    destruct kind; try apply IH. cbn. discriminate.
Qed.

(** The schemas the scripts declare have distinct field names. *)
Lemma declared_schemas_well_formed :
  Core.well_formed (Core.TModel (Core.schema_fields Core.RecommendationList_schema)) = true
  /\ Core.well_formed (Core.TModel (Core.schema_fields Core.ResearchPaperNotes_schema)) = true.
Proof. split; reflexivity. Qed.

Lemma has_type_str (v : Core.data) :
  Core.has_type Core.TStr v = true -> exists s, v = Core.DStr s.
Proof. destruct v; try discriminate. eauto. Qed.

Lemma has_type_int (v : Core.data) :
  Core.has_type Core.TInt v = true -> exists z, v = Core.DInt z.
Proof. destruct v; try discriminate. eauto. Qed.

Lemma strings_build (items : list Core.data) :
  forallb (Core.has_type Core.TStr) items = true ->
  exists l, mapM Core.as_str items = Some l.
Proof.
  induction items as [|x rest IH]; intros H; cbn in H |- *; [eauto |].
  apply andb_true_iff in H as [Hx Hrest].
  destruct (has_type_str x Hx) as [s ->]. destruct (IH Hrest) as [l ->].
  cbn. eauto.
Qed.

(** Pick the members of an object that has a model's shape, each
    with the one shape its type allows. *)
Ltac members H :=
  cbn in H;
  repeat match type of H with
    | context [Core.member ?k ?o] =>
        let E := fresh "E" in
        destruct (Core.member k o) as [[| ? | ? | ? | ?]|] eqn:E;
        cbn in H; try discriminate H;
        try (rewrite andb_false_r in H; discriminate H)
    end.

(** A validated ResearchPaperNotes object builds an instance of the class. *)
Lemma ResearchPaperNotes_instance (v : Core.data) :
  Core.has_type (Core.TModel (Core.schema_fields Core.ResearchPaperNotes_schema)) v = true ->
  exists n, Core.ResearchPaperNotes_of v = Some n.
Proof.
  destruct v as [| | | | o]; try discriminate. intros H. members H.
  rewrite andb_true_r in H. destruct (strings_build _ H) as [l Hl].
  unfold Core.ResearchPaperNotes_of.
  repeat match goal with E : Core.member _ o = _ |- _ => rewrite E; clear E end.
  cbn. rewrite Hl. cbn. eauto.
Qed.

(** A validated Recommendation object builds an instance of the class. *)
Lemma Recommendation_instance (v : Core.data) :
  Core.has_type (Core.TModel Core.Recommendation_fields) v = true ->
  exists r, Core.Recommendation_of v = Some r.
Proof.
  destruct v as [| | | | o]; try discriminate. intros H. members H.
  unfold Core.Recommendation_of.
  repeat match goal with E : Core.member _ o = _ |- _ => rewrite E; clear E end.
  cbn. eauto.
Qed.

Lemma recommendations_build (items : list Core.data) :
  forallb (Core.has_type (Core.TModel Core.Recommendation_fields)) items = true ->
  exists l, mapM Core.Recommendation_of items = Some l.
Proof.
  induction items as [|x rest IH]; intros H; [cbn; eauto |].
  cbn [forallb] in H. apply andb_true_iff in H as [Hx Hrest].
  destruct (Recommendation_instance x Hx) as [r Hr].
  destruct (IH Hrest) as [l Hl].
  cbn [mapM]. rewrite Hr. cbn. rewrite Hl. cbn. eauto.
Qed.

(** A validated RecommendationList object builds an instance of the class. *)
Lemma RecommendationList_instance (v : Core.data) :
  Core.has_type (Core.TModel (Core.schema_fields Core.RecommendationList_schema)) v = true ->
  exists l, Core.RecommendationList_of v = Some l.
Proof.
  destruct v as [| | | | o]; try discriminate. intros H.
  cbn [Core.has_type Core.has_fields Core.schema_fields Core.RecommendationList_schema
       Core.name Core.ty Core.required] in H.
  destruct (Core.member "recommendations" o) as [[| ? | ? | items | ?]|] eqn:E;
    try discriminate H.
  rewrite andb_true_r in H. destruct (recommendations_build items H) as [l Hl].
  unfold Core.RecommendationList_of. rewrite E. cbn. rewrite Hl. cbn. eauto.
Qed.

(** C4.  For a schema with distinct field names: whenever a run of
    a configuration with that schema succeeds, the payload is a
    structured object that has the schema's shape all the way down,
    so every required field is present with a value of its declared
    type.  A final answer that reads as an object without some
    required field fails validation as [SchemaViolation], and the run
    state [Validating] turns it into [Failure SchemaViolation].
    Validation has no third outcome: a whole object or
    [SchemaViolation]. *)
Theorem C4_schema_all_or_nothing (parse : string -> option Core.data)
    (schema : Core.OutputSchema) :
  Core.well_formed (Core.TModel (Core.schema_fields schema)) = true ->
  (forall generate config task_input side_context p,
     Core.output_schema config = Some schema ->
     fst (Core.orchestrate parse generate config task_input side_context) = Core.Success p ->
     exists o,
       p = Core.Structured (Core.DObj o)
       /\ Core.has_type (Core.TModel (Core.schema_fields schema)) (Core.DObj o) = true
       /\ forall f, f ∈ Core.schema_fields schema -> Core.required f = true ->
            exists v, Core.member (Core.name f) o = Some v
                      /\ Core.has_type (Core.ty f) v = true)
  /\ (forall raw o f,
        parse raw = Some (Core.DObj o) ->
        f ∈ Core.schema_fields schema -> Core.required f = true ->
        Core.member (Core.name f) o = None ->
        Core.validate parse raw schema = inr Core.SchemaViolation
        /\ forall config, Core.output_schema config = Some schema ->
             exists message,
               Core.validating parse config raw = Core.Failure Core.SchemaViolation message)
  /\ (forall raw,
        (exists obj, Core.validate parse raw schema = inl obj
                     /\ Core.has_type (Core.TModel (Core.schema_fields schema)) obj = true)
        \/ Core.validate parse raw schema = inr Core.SchemaViolation).
Proof.
  intros Hwf.
  assert (Hval : forall raw obj,
             Core.validate parse raw schema = inl obj ->
             Core.has_type (Core.TModel (Core.schema_fields schema)) obj = true
             /\ exists o, obj = Core.DObj o).
  { intros raw obj. unfold Core.validate.
    destruct (parse raw) as [v|]; [| discriminate].
    destruct (Core.coerce (Core.TModel (Core.schema_fields schema)) v) as [obj'|] eqn:Hc;
      [| discriminate].
    intros [= <-]. split; [exact (coerce_has_type _ Hwf v obj' Hc) |].
    destruct v as [| | | | o]; try discriminate Hc. cbn in Hc.
    destruct (Core.coerce_fields Core.coerce o (Core.schema_fields schema));
      [| discriminate Hc].
    injection Hc as <-. eauto. }
  split; [| split].
  - intros generate config task_input side_context p Hs Hrun.
    unfold Core.orchestrate in Hrun.
    destruct (awaiting_model_success parse generate config _ _ p Hrun) as [raw Hraw].
    unfold Core.validating in Hraw. rewrite Hs in Hraw.
    destruct (Core.validate parse raw schema) as [obj | kind] eqn:Hv; [| discriminate].
    injection Hraw as <-.
    destruct (Hval raw obj Hv) as [Hty [o ->]].
    exists o. split; [reflexivity |]. split; [exact Hty |].
    cbn in Hty. exact (has_fields_required Core.has_type o _ Hty).
  - intros raw o f Hp Hin Hreq Hnone.
    assert (Hv : Core.validate parse raw schema = inr Core.SchemaViolation).
    { unfold Core.validate. rewrite Hp. cbn.
      rewrite (coerce_fields_missing Core.coerce o _ f Hin Hreq Hnone). reflexivity. }
    split; [exact Hv |].
    intros config Hs. unfold Core.validating. rewrite Hs, Hv. eauto.
  - intros raw. destruct (Core.validate parse raw schema) as [obj | kind] eqn:Hv.
    + left. exists obj. split; [reflexivity |]. exact (proj1 (Hval raw obj Hv)).
    + right. unfold Core.validate in Hv.
      destruct (parse raw) as [v|]; [| symmetry; exact Hv].
      destruct (Core.coerce _ v); [discriminate | symmetry; exact Hv].
Qed.

Lemma C4_witness :
  Core.well_formed (Core.TModel (Core.schema_fields Core.ResearchPaperNotes_schema)) = true
  /\ Core.validate toy_parse "{title: Dune}" Core.ResearchPaperNotes_schema =
       inr Core.SchemaViolation.
Proof.
  assert (Hwf : Core.well_formed
                  (Core.TModel (Core.schema_fields Core.ResearchPaperNotes_schema)) = true)
    by reflexivity.
  split; [exact Hwf |].
  refine (proj1 (proj1 (proj2 (C4_schema_all_or_nothing toy_parse
                                 Core.ResearchPaperNotes_schema Hwf))
                   "{title: Dune}" [("title", Core.DStr "Dune")]
                   (Core.Field "tldr" Core.TStr true
                      "A single, impactful sentence summarizing the entire paper. The 'Too Long; Didn't Read' version.")
                   eq_refl _ eq_refl eq_refl)).
  apply elem_of_cons. right. apply list_elem_of_here.
Defined.

(** ** Further properties of the scripts *)

(** The gate of arxiv_genius_agent.py is exact.  With
    [GOOGLE_API_KEY] unset or empty the process prints one line and
    exits with status 1: no agent object exists, the database is as it
    was.  With any other value the script never ends in [exit]: it
    prints its two opening lines and calls the ArxivTools agent. *)
Theorem arxiv_gate_exact (W : World) environ db :
  let fin := arxiv_genius_agent.script W environ (boot db) in
  match Py.getenv environ "GOOGLE_API_KEY" with
  | None | Some EmptyString =>
      fin = (inr (Py.SystemExit 1),
             {| out := [EPrint "🔴 ERROR: Set your GOOGLE_API_KEY environment variable"];
                heap := []; lancedb := db |})
  | Some (String _ _) =>
      (forall n, fst fin <> inr (Py.SystemExit n))
      /\ exists rest,
           out (snd fin) =
             EPrint "🤖 Trying ArxivTools approach..." :: EPrint (Py.str_mul "-" 60)
             :: ERun 0 [] None arxiv_genius_agent.prompt_tools :: rest
  end.
Proof.
  cbn zeta. unfold arxiv_genius_agent.script.
  destruct (Py.getenv environ "GOOGLE_API_KEY") as [[|c s]|]; cbn [Py.truthy negb];
    [reflexivity | | reflexivity].
  run_arxiv.
  all: split; [intros n; discriminate | eexists; reflexivity].
Qed.

(** The gate of researcher.py is exact.  With [GOOGLE_API_KEY] unset
    or empty the process prints its four lines, in this order, and
    exits with status 1 before any agent is constructed.  With any
    other value the script never ends in [exit], and its trace starts
    with the banner and the one agent call. *)
Theorem researcher_gate_exact (W : World) environ db :
  let fin := researcher.script W environ (boot db) in
  match Py.getenv environ "GOOGLE_API_KEY" with
  | None | Some EmptyString =>
      fin = (inr (Py.SystemExit 1),
             {| out :=
                  [EPrint "❌ Error: GOOGLE_API_KEY environment variable is not set!";
                   EPrint "Please set your Google API key:";
                   EPrint "export GOOGLE_API_KEY=your_api_key_here";
                   EPrint (Py.nl +:+ "Get your API key from: https://ai.google.dev/gemini-api/docs/api-key")];
                heap := []; lancedb := db |})
  | Some (String _ _) =>
      (forall n, fst fin <> inr (Py.SystemExit n))
      /\ exists rest, out (snd fin) = researcher_banner ++ researcher_call :: rest
  end.
Proof.
  cbn zeta.
  destruct (Py.getenv environ "GOOGLE_API_KEY") as [[|c s]|] eqn:E.
  - unfold researcher.script. rewrite E. reflexivity.
  - assert (Hk : Py.truthy (Py.getenv environ "GOOGLE_API_KEY") = true)
      by (rewrite E; reflexivity).
    destruct (researcher_trace W environ db Hk) as [_ H]. cbn zeta in H.
    destruct (raised (researcher_reply W)) as [[m|m]|]; destruct H as [-> ->].
    + split; [intros n; discriminate | eexists; reflexivity].
    + split; [intros n; discriminate | eexists; reflexivity].
    + split; [intros n; discriminate | eexists; reflexivity].
  - unfold researcher.script. rewrite E. reflexivity.
Qed.

(** fact_checker.py, in full: three lines, then one call of a newly
    constructed agent with the example claim.  Nothing is printed
    after the call and nothing catches what it raises: an exception of
    the call is the end of the process (exit status 1 for an
    [Exception]), a normal return is exit status 0.  The environment
    plays no part and the vector database is left alone. *)
Theorem fact_checker_one_unguarded_call (W : World) environ db :
  let r := respond W fact_checker.fact_checker_agent_cfg [] None fact_checker.example_claim [] in
  let fin := fact_checker.script W environ (boot db) in
  fst fin = match raised r with Some e => inr (Py.Raise e) | None => inl tt end
  /\ exit_status (fst fin) =
       match raised r with
       | None => Some 0%Z
       | Some (Py.Exception _) => Some 1%Z
       | Some (Py.BaseException _) => None
       end
  /\ out (snd fin) =
       [EPrint "--- Gemini Fact-Checker Agent ---";
        EPrint "Type your claim or question below, or type 'exit' to quit.";
        EPrint (Py.nl +:+ "Verifying claim: '" +:+ fact_checker.example_claim +:+ "'" +:+ Py.nl);
        ERun 0 [] None fact_checker.example_claim]
  /\ heap (snd fin) =
       [{| cfg := fact_checker.fact_checker_agent_cfg;
           history := UserTurn fact_checker.example_claim :: said r |}]
  /\ lancedb (snd fin) = db.
Proof.
  cbn zeta. unfold fact_checker.script, fact_checker.main, print_response, call, bind.
  cbn -[fact_checker.example_claim].
  change (table_seen fact_checker.fact_checker_agent_cfg db) with (@None (list doc)).
  destruct (raised _) as [[m|m]|]; cbn; auto.
Qed.

(** The agents of the later strategies exist only if they are
    needed.  arxiv_genius_agent.py constructs the ArxivTools agent at
    once; [create_knowledge_based_agent] is called, and constructs the
    knowledge-base agent, only after the first strategy raised an
    [Exception]; the fallback agent is constructed only after the
    second strategy raised one too.  The objects lie on the heap in
    that order. *)
Theorem arxiv_agents_constructed_on_demand (W : World) environ db :
  Py.truthy (Py.getenv environ "GOOGLE_API_KEY") = true ->
  map cfg (heap (snd (arxiv_genius_agent.script W environ (boot db)))) =
    arxiv_genius_agent.agent_cfg ::
    match arxiv_genius_agent.outcome_tools W with
    | Some (Py.Exception _) =>
        match kb_construct W with
        | None => [arxiv_genius_agent.kb_agent_cfg]
        | Some _ => []
        end
        ++ match arxiv_genius_agent.outcome_kb W with
           | Some (Py.Exception _) => [arxiv_genius_agent.fallback_agent_cfg]
           | _ => []
           end
    | _ => []
    end.
Proof.
  intros Hk. unfold arxiv_genius_agent.script. rewrite Hk. cbn [negb]. run_arxiv.
  all: simplify_eq; reflexivity.
Qed.

Lemma arxiv_agents_constructed_on_demand_witness :
  Py.truthy (Py.getenv environ_with_key "GOOGLE_API_KEY") = true
  /\ map cfg (heap (snd (arxiv_genius_agent.script calm_world environ_with_key (boot ∅)))) =
       [arxiv_genius_agent.agent_cfg]
  /\ map cfg (heap (snd (arxiv_genius_agent.script stormy_world environ_with_key (boot ∅)))) =
       [arxiv_genius_agent.agent_cfg; arxiv_genius_agent.kb_agent_cfg;
        arxiv_genius_agent.fallback_agent_cfg].
Proof.
  assert (Hk : Py.truthy (Py.getenv environ_with_key "GOOGLE_API_KEY") = true) by reflexivity.
  split; [exact Hk |]. split.
  - rewrite (arxiv_agents_constructed_on_demand calm_world environ_with_key ∅ Hk). reflexivity.
  - rewrite (arxiv_agents_constructed_on_demand stormy_world environ_with_key ∅ Hk). reflexivity.
Defined.

(** The vector database at the end of arxiv_genius_agent.py. *)
Lemma arxiv_final_db (W : World) environ db :
  lancedb (snd (arxiv_genius_agent.script W environ (boot db))) = arxiv_db_after W environ db.
Proof.
  unfold arxiv_db_after.
  destruct (Py.truthy (Py.getenv environ "GOOGLE_API_KEY")) eqn:Hk.
  - unfold arxiv_genius_agent.script. rewrite Hk. cbn [negb]. run_arxiv.
    all: simplify_eq; reflexivity.
  - rewrite (arxiv_gate W environ _ Hk). reflexivity.
Qed.



Lemma recreated_elsewhere (kb : ArxivKnowledgeBase) (docs : list doc)
    (db : gmap (string * string) (list doc)) (k : string * string) :
  k <> db_key (vector_db kb) -> recreated kb docs db !! k = db !! k.
Proof.
  intros Hk. unfold recreated.
  rewrite lookup_insert_ne by congruence. rewrite lookup_delete_ne by congruence.
  reflexivity.
Qed.

(** The footprint of arxiv_genius_agent.py on the vector database.
    No table other than [arxiv_papers] at [./temp_lancedb] is ever
    changed.  And either the whole database is as it was and the trace
    holds no load, or the first strategy raised an [Exception], the
    knowledge-base agent was constructed, and the trace holds
    [load(recreate=True)] on that table. *)
Theorem arxiv_database_footprint (W : World) environ db :
  let fin := arxiv_genius_agent.script W environ (boot db) in
  (forall k, k <> db_key (vector_db arxiv_genius_agent.knowledge_base) ->
     lancedb (snd fin) !! k = db !! k)
  /\ ((lancedb (snd fin) = db /\ forall d r, ELoad d r ∉ out (snd fin))
      \/ (exists m,
            arxiv_genius_agent.outcome_tools W = Some (Py.Exception m)
            /\ kb_construct W = None
            /\ ELoad (vector_db arxiv_genius_agent.knowledge_base) true ∈ out (snd fin))).
Proof.
  cbn zeta. split.
  - intros k Hk. rewrite arxiv_final_db. unfold arxiv_db_after.
    destruct (Py.truthy _); [| reflexivity].
    destruct (arxiv_genius_agent.outcome_tools W) as [[m|m]|]; try reflexivity.
    destruct (kb_construct W); [reflexivity |].
    apply recreated_elsewhere. exact Hk.
  - destruct (Py.truthy (Py.getenv environ "GOOGLE_API_KEY")) eqn:Hk.
    + unfold arxiv_genius_agent.script. rewrite Hk. cbn [negb]. run_arxiv.
      all: simplify_eq.
      all: first
        [ left; split; [reflexivity |];
          intros d r Hin;
          repeat (apply elem_of_cons in Hin as [Hin|Hin]; [discriminate Hin |]);
          apply elem_of_nil in Hin; contradiction
        | right; eexists; split; [reflexivity |]; split; [reflexivity |];
          do 7 apply list_elem_of_further; apply list_elem_of_here ].
    + rewrite (arxiv_gate W environ _ Hk). cbn. left. split; [reflexivity |].
      intros d r Hin.
      repeat (apply elem_of_cons in Hin as [Hin|Hin]; [discriminate Hin |]).
      apply elem_of_nil in Hin. contradiction.
Qed.

